(** * Portfolio Mandala dApp: wallet session and mint workflow

    A shallow embedding of the client-side logic of
    [frontend/js/web3/wallet-connection.js] (classes [WalletConnection] and
    [NFTMinting]) and of the address helpers of
    [legacy/web/static/js/app.js] (class [MandalaApp]).

    Conventions of the embedding.
    - JavaScript strings are [string]s; the strings the code handles here
      (addresses, chain ids, status words) are ASCII, so [String.length] is
      the JavaScript [length] and [toLowerCase] only moves ['A'..'Z'].
    - [null]/[undefined] is [None]; a value whose JavaScript type varies is a
      [JsValue].
    - An [async] method is a function from the object's state to a
      completion (normal or thrown), the new state and the list of
      externally visible events it produced, in order.  What the outside
      world answers (provider replies, HTTP replies, the user's click in the
      confirmation dialog) is an explicit environment argument.
    - The calls on an object are taken one at a time, each run to its
      completion.
    - [setTimeout(checkStatus, 5000)] puts the closure in a FIFO queue of
      pending timers; firing a timer is a separate step. *)

From Stdlib Require Import Bool Arith ZArith Lia List String Ascii DecimalString.
Import ListNotations.

#[local] Open Scope string_scope.

(** ** JavaScript values and string primitives *)

Module JS.

Inductive JsValue : Type :=
| JsBool (b : bool)
| JsNull
| JsString (s : string).

(** ToBoolean on the values above. *)
Definition truthy (v : JsValue) : bool :=
  match v with
  | JsBool b => b
  | JsNull => false
  | JsString s => negb (String.eqb s "")
  end.

(** [a && b]: the left operand when it is falsy, else the right one. *)
Definition js_and (a b : JsValue) : JsValue :=
  if truthy a then b else a.

(** [a || b] on strings that may be absent ([data.error || 'default']). *)
Definition or_default (a : option string) (b : string) : string :=
  match a with
  | Some s => if String.eqb s "" then b else s
  | None => b
  end.

(** [!address] for an argument that is [null] or a string. *)
Definition falsy_string (a : option string) : bool :=
  match a with
  | None => true
  | Some s => String.eqb s ""
  end.

(** [s.slice(start, stop)]; [stop = None] is the one-argument form.
    Negative indices count from the end, everything is clamped to
    [0 .. length]. *)
Definition slice (s : string) (start : Z) (stop : option Z) : string :=
  let len := Z.of_nat (String.length s) in
  let clamp i := (if i <? 0 then Z.max (len + i) 0 else Z.min i len)%Z in
  let from := clamp start in
  let to := match stop with None => len | Some e => clamp e end in
  substring (Z.to_nat from) (Z.to_nat (Z.max (to - from) 0)) s.

Definition lower_ascii (c : ascii) : ascii :=
  let n := nat_of_ascii c in
  if (65 <=? n)%nat && (n <=? 90)%nat then ascii_of_nat (n + 32) else c.

Fixpoint toLowerCase (s : string) : string :=
  match s with
  | EmptyString => EmptyString
  | String c s' => String (lower_ascii c) (toLowerCase s')
  end.

(** [s.includes(sub)] *)
Definition includes (s sub : string) : bool :=
  match index 0 sub s with
  | Some _ => true
  | None => false
  end.

(** A thrown value: an [Error] (or provider error object) with its
    optional numeric [code] and its [message]. *)
Record JsError : Type := mkError {
  code : option Z;
  message : string
}.

Definition Error (msg : string) : JsError := mkError None msg.

(** A number inside a template literal. *)
Definition show_Z (z : Z) : string := NilEmpty.string_of_int (Z.to_int z).

(** What an awaited external call settles to. *)
Inductive Settled (A : Type) : Type :=
| Resolved (a : A)
| Rejected (e : JsError).
Arguments Resolved {A} a.
Arguments Rejected {A} e.

End JS.
Import JS.

(** ** Events visible outside the two objects *)

Inductive Event : Type :=
| Toast (msg kind : string)                (* MandalaApp.showToast *)
| ConsoleError (label : string) (e : JsError)
| WindowOpen (url : string)
| Reload                                   (* window.location.reload() *)
| UpdateUI                                 (* WalletConnection.updateUI *)
| ListenersRegistered                      (* the three provider.on(...) of init *)
| Request (method : string)                (* provider.request({method}) *)
| FetchMintStatus (trader_address : string) (* GET /nft/mint-status/{address} *)
| FetchPrepare (trader_address : string)   (* POST /api/nft/prepare-mint *)
| FetchStatus (tx_hash trader_address : string) (* POST /api/nft/transaction-status *)
| ShowMintConfirmation
| ShowMintSuccessModal (token_id : option Z) (tx_hash : string)
| SetTimeout (ms : Z)
| UnhandledRejection (e : JsError).

(** ** A small monad for [async] methods over an object state *)

Module Eff.

Inductive Completion (A : Type) : Type :=
| Normal (a : A)
| Throw (e : JsError).
Arguments Normal {A} a.
Arguments Throw {A} e.

Definition t (S A : Type) : Type := S -> Completion A * S * list Event.

Definition ret {S A} (a : A) : t S A := fun s => (Normal a, s, []).

Definition bind {S A B} (m : t S A) (k : A -> t S B) : t S B :=
  fun s =>
    match m s with
    | (Normal a, s1, tr1) =>
        let '(r, s2, tr2) := k a s1 in (r, s2, (tr1 ++ tr2)%list)
    | (Throw e, s1, tr1) => (Throw e, s1, tr1)
    end.

Definition throw {S A} (e : JsError) : t S A := fun s => (Throw e, s, []).
Definition emit {S} (ev : Event) : t S unit := fun s => (Normal tt, s, [ev]).
Definition get {S} : t S S := fun s => (Normal s, s, []).
Definition modify {S} (f : S -> S) : t S unit := fun s => (Normal tt, f s, []).

(** [await x] for an external promise whose settlement is known. *)
Definition await {S A} (x : Settled A) : t S A :=
  match x with
  | Resolved a => ret a
  | Rejected e => throw e
  end.

(** [try { m } catch (error) { h error }] *)
Definition try_catch {S A} (m : t S A) (h : JsError -> t S A) : t S A :=
  fun s =>
    match m s with
    | (Normal a, s1, tr1) => (Normal a, s1, tr1)
    | (Throw e, s1, tr1) =>
        let '(r, s2, tr2) := h e s1 in (r, s2, (tr1 ++ tr2)%list)
    end.

(** [try { m } finally { f }], for an [f] that neither returns nor throws
    on its own account: the completion of [m] is kept. *)
Definition try_finally {S A} (m : t S A) (f : t S unit) : t S A :=
  fun s =>
    let '(r, s1, tr1) := m s in
    match f s1 with
    | (Normal _, s2, tr2) => (r, s2, (tr1 ++ tr2)%list)
    | (Throw e, s2, tr2) => (Throw e, s2, (tr1 ++ tr2)%list)
    end.

Definition result {S A} (x : Completion A * S * list Event) : Completion A :=
  fst (fst x).
Definition state {S A} (x : Completion A * S * list Event) : S :=
  snd (fst x).
Definition trace {S A} (x : Completion A * S * list Event) : list Event :=
  snd x.

(** [m] keeps the state property [P], however it completes. *)
Definition preserves {S A} (P : S -> Prop) (m : t S A) : Prop :=
  forall s, P s -> P (state (m s)).

End Eff.
Import Eff.

Declare Scope eff_scope.
Delimit Scope eff_scope with eff.
Notation "x <- m ;; k" := (Eff.bind m (fun x => k))
  (at level 61, m at next level, right associativity) : eff_scope.
Notation "m ;; k" := (Eff.bind m (fun _ => k))
  (at level 61, right associativity) : eff_scope.
#[local] Open Scope eff_scope.

(** ** [MandalaApp]: the static helpers of app.js *)

Module MandalaApp.

(** [static formatAddress(address)]: the argument itself when it is falsy
    or shorter than 10, else head, three dots, tail. *)
Definition formatAddress (address : option string) : option string :=
  match address with
  | None => None
  | Some a =>
      if falsy_string address || (String.length a <? 10)%nat
      then address
      else Some (slice a 0 (Some 6%Z) ++ "..." ++ slice a (-4) None)
  end.

Definition showToast {S} (msg kind : string) : Eff.t S unit :=
  emit (Toast msg kind).

End MandalaApp.

(** ** [WalletConnection]: the wallet session *)

Module WalletConnection.

(** The only provider object the code ever stores is [window.ethereum]. *)
Inductive Provider : Type := WindowEthereum.

(** The fields of the object ([web3] is never assigned anything but
    [null] and is left out). *)
Record t : Type := mk {
  isConnected : bool;
  currentAccount : option string;
  provider : option Provider;
  chainId : option string
}.

(** [targetNetwork.chainId], 80002 in hex. *)
Definition targetChainId : string := "0x13882".

(** The object as the constructor leaves it before [init]. *)
Definition constructed : t := mk false None None None.

(** The host page: whether [window.ethereum] is defined, whether
    [window.mandalaGenerator] is, and the message the engine puts in the
    [TypeError] raised by [.request] on a [null] or [undefined] provider. *)
Record Host : Type := mkHost {
  ethereum : bool;
  mandalaGenerator : bool;
  typeErrorMessage : string
}.

Definition showError (msg : string) : Eff.t t unit :=
  MandalaApp.showToast msg "error".

Definition updateUI : Eff.t t unit := emit UpdateUI.

(** [await this.provider.request({ method })], [reply] being what the
    provider settles the request to. *)
Definition request {A} (h : Host) (method : string) (reply : Settled A)
  : Eff.t t A :=
  s <- get ;;
  match provider s with
  | None => throw (Error (typeErrorMessage h))
  | Some WindowEthereum => emit (Request method) ;; await reply
  end.

Definition disconnectWallet : Eff.t t unit :=
  modify (fun _ => mk false None None None) ;;
  updateUI ;;
  MandalaApp.showToast "Wallet disconnected" "info".

Definition onAccountChanged (h : Host) (account : option string)
  : Eff.t t unit :=
  if mandalaGenerator h && negb (falsy_string account)
  then emit (SetTimeout 500)
  else ret tt.

Definition handleAccountsChanged (h : Host) (accounts : list string)
    (chainIdReply : Settled string) : Eff.t t unit :=
  match accounts with
  | [] => disconnectWallet
  | account0 :: _ =>
      modify (fun s => mk true (Some account0) (provider s) (chainId s)) ;;
      c <- request h "eth_chainId" chainIdReply ;;
      modify (fun s => mk (isConnected s) (currentAccount s) (provider s) (Some c)) ;;
      updateUI ;;
      s <- get ;;
      onAccountChanged h (currentAccount s)
  end.

(** The reload ends the page, and the object with it; the state returned
    is the object as the handler leaves it until then. *)
Definition handleChainChanged (newChainId : string) : Eff.t t unit :=
  modify (fun s => mk (isConnected s) (currentAccount s) (provider s) (Some newChainId)) ;;
  updateUI ;;
  emit Reload.

Definition handleDisconnect : Eff.t t unit := disconnectWallet.

(** What the provider answers to the requests of [ensureCorrectNetwork]. *)
Record NetworkReplies : Type := mkNetworkReplies {
  chainIdReply : Settled string;
  switchReply : Settled unit;
  addReply : Settled unit
}.

Definition is4902 (e : JsError) : bool :=
  match code e with
  | Some c => (c =? 4902)%Z
  | None => false
  end.

Definition ensureCorrectNetwork (h : Host) (r : NetworkReplies)
  : Eff.t t bool :=
  s <- get ;;
  match provider s with
  | None => ret false
  | Some _ =>
      currentChainId <- request h "eth_chainId" (chainIdReply r) ;;
      if negb (String.eqb currentChainId targetChainId) then
        try_catch
          (request h "wallet_switchEthereumChain" (switchReply r) ;;
           ret true)
          (fun switchError =>
             if is4902 switchError then
               try_catch
                 (request h "wallet_addEthereumChain" (addReply r) ;;
                  ret true)
                 (fun addError =>
                    emit (ConsoleError "Error adding network:" addError) ;;
                    showError "Failed to add Polygon Amoy network. Please add it manually." ;;
                    ret false)
             else
               emit (ConsoleError "Error switching network:" switchError) ;;
               showError "Please switch to Polygon Amoy testnet manually." ;;
               ret false)
      else ret true
  end.

Definition isOnCorrectNetwork (s : t) : bool :=
  match chainId s with
  | Some c => String.eqb c targetChainId
  | None => false
  end.

(** The formatter of this class: [''] for a falsy address and no length
    test. *)
Definition formatAddress (address : option string) : string :=
  match address with
  | None => ""
  | Some a =>
      if falsy_string address then ""
      else slice a 0 (Some 6%Z) ++ "..." ++ slice a (-4) None
  end.

Definition parseWalletError (error : JsError) : string :=
  match code error with
  | Some 4001%Z => "Connection rejected by user"
  | Some (-32002)%Z => "Connection request already pending"
  | _ =>
      if includes (message error) "User rejected"
      then "Connection rejected by user"
      else "Connection failed: " ++ message error
  end.

(** What the provider answers during one [connectWallet]. *)
Record ConnectReplies : Type := mkConnectReplies {
  requestAccountsReply : Settled (list string);
  accountChainIdReply : Settled string;
  networkReplies : NetworkReplies
}.

Definition connectWallet (h : Host) (r : ConnectReplies) : Eff.t t bool :=
  if negb (ethereum h) then
    showError "MetaMask is not installed. Please install MetaMask to continue." ;;
    emit (WindowOpen "https://metamask.io/download.html") ;;
    ret false
  else
    try_catch
      (accounts <- request h "eth_requestAccounts" (requestAccountsReply r) ;;
       if (0 <? List.length accounts)%nat then
         handleAccountsChanged h accounts (accountChainIdReply r) ;;
         ensureCorrectNetwork h (networkReplies r) ;;
         MandalaApp.showToast "Wallet connected successfully!" "success" ;;
         ret true
       else ret false)
      (fun error =>
         emit (ConsoleError "Error connecting wallet:" error) ;;
         showError (parseWalletError error) ;;
         ret false).

(** [init], run once by the constructor: the only assignment of a provider
    to the object. *)
Definition init (h : Host) (accountsReply : Settled (list string))
    (chainIdReply : Settled string) : Eff.t t unit :=
  (if ethereum h then
     modify (fun s => mk (isConnected s) (currentAccount s) (Some WindowEthereum) (chainId s)) ;;
     accounts <- request h "eth_accounts" accountsReply ;;
     (if (0 <? List.length accounts)%nat
      then handleAccountsChanged h accounts chainIdReply
      else ret tt) ;;
     emit ListenersRegistered
   else ret tt) ;;
  updateUI.

Definition getConnectedAccount (s : t) : option string := currentAccount s.

Definition isWalletConnected (s : t) : bool := isConnected s.

(** [this.isConnected && this.currentAccount &&
     this.currentAccount.toLowerCase() === traderAddress.toLowerCase() &&
     this.isOnCorrectNetwork()], for a [traderAddress] that is a string. *)
Definition canUserMint (s : t) (traderAddress : string) : JsValue :=
  js_and (JsBool (isConnected s))
    match currentAccount s with
    | None => JsNull
    | Some a =>
        js_and (JsString a)
          (js_and (JsBool (String.eqb (toLowerCase a) (toLowerCase traderAddress)))
                  (JsBool (isOnCorrectNetwork s)))
    end.

(** The calls the page and the provider can make on the object after its
    construction, each with what the outside answers during the call. *)
Inductive Call : Type :=
| ConnectWallet (r : ConnectReplies)
| DisconnectWallet
| AccountsChanged (accounts : list string) (chainIdReply : Settled string)
| ChainChanged (newChainId : string)
| ProviderDisconnect
| EnsureCorrectNetwork (r : NetworkReplies).

(** The state a call leaves behind (whether it returned or threw). *)
Definition after (h : Host) (c : Call) (s : t) : t :=
  match c with
  | ConnectWallet r => Eff.state (connectWallet h r s)
  | DisconnectWallet => Eff.state (disconnectWallet s)
  | AccountsChanged accounts reply =>
      Eff.state (handleAccountsChanged h accounts reply s)
  | ChainChanged c' => Eff.state (handleChainChanged c' s)
  | ProviderDisconnect => Eff.state (handleDisconnect s)
  | EnsureCorrectNetwork r => Eff.state (ensureCorrectNetwork h r s)
  end.

(** The states of the object once [disconnectWallet] has run, directly or
    from [handleAccountsChanged] or [handleDisconnect], and any number of
    later calls have been made. *)
Inductive AfterDisconnect (h : Host) : t -> Prop :=
| after_disconnect (s : t) :
    AfterDisconnect h (Eff.state (disconnectWallet s))
| after_call (c : Call) (s : t) :
    AfterDisconnect h s -> AfterDisconnect h (after h c s).

End WalletConnection.

(** ** [NFTMinting]: mint status and the mint workflow *)

Module NFTMinting.

Import WalletConnection.

(** The element [#mint-nft-btn], as far as the class touches it. *)
Record MintButton : Type := mkButton {
  textContent : string;
  disabled : bool;
  minted : bool;          (* class 'minted' *)
  loading : bool;         (* class 'loading' *)
  title : string;
  display : string
}.

(** The closure [checkStatus] of one [waitForTransactionConfirmation]:
    its counter [attempts] and the two captured arguments. *)
Record Poll : Type := mkPoll {
  attempts : nat;
  txHash : string;
  traderAddress : string
}.

(** The object ([contractABI] and [contract] are written but never read)
    together with the parts of the page it reads and writes:
    [window.walletConnection], the mint button, and the [checkStatus]
    closures waiting on a 5000 ms timer, oldest first. *)
Record t : Type := mk {
  contractAddress : option string;
  isMinting : bool;
  walletConnection : WalletConnection.t;
  mintButton : option MintButton;
  timers : list Poll
}.

Definition set_isMinting (b : bool) (s : t) : t :=
  mk (contractAddress s) b (walletConnection s) (mintButton s) (timers s).
Definition set_mintButton (b : option MintButton) (s : t) : t :=
  mk (contractAddress s) (isMinting s) (walletConnection s) b (timers s).
Definition set_timers (q : list Poll) (s : t) : t :=
  mk (contractAddress s) (isMinting s) (walletConnection s) (mintButton s) q.

Definition maxAttempts : nat := 60.

(** Reply of [GET /nft/mint-status/{address}]. *)
Record MintStatus : Type := mkMintStatus {
  has_minted : bool;
  ms_token_id : option Z;
  estimated_cost : option string
}.

(** Reply of [POST /api/nft/prepare-mint]; the transaction payload and
    the gas estimate are passed on untouched. *)
Record PrepareData : Type := mkPrepareData {
  success : bool;
  prepare_error : option string;
  transaction : string;
  gas_estimate : option string
}.

(** Reply of [POST /api/nft/transaction-status]. *)
Record StatusData : Type := mkStatusData {
  status : option string;
  token_id : option Z;
  status_error : option string
}.

Definition status_is (d : StatusData) (word : string) : bool :=
  match status d with
  | Some w => String.eqb w word
  | None => false
  end.

Definition show_token (tok : option Z) : string :=
  match tok with
  | Some z => show_Z z
  | None => "undefined"
  end.

Definition updateMintButton (traderAddress : string) (mintStatus : MintStatus)
  : Eff.t t unit :=
  s <- get ;;
  match mintButton s with
  | None => ret tt
  | Some b =>
      let w := walletConnection s in
      let canMint := canUserMint w traderAddress in
      let hasAlreadyMinted := has_minted mintStatus in
      let b' :=
        if hasAlreadyMinted then
          mkButton "✅ Already Minted" true true (loading b)
            ("NFT #" ++ show_token (ms_token_id mintStatus) ++ " already minted")
            (display b)
        else if negb (isWalletConnected w) then
          mkButton "Connect Wallet to Mint" true false (loading b)
            "Connect your wallet first" (display b)
        else if negb (truthy canMint) then
          mkButton "Can Only Mint Your Own" true false (loading b)
            "You can only mint NFTs for your own wallet address" (display b)
        else
          mkButton "🎨 Mint NFT" false false (loading b)
            ("Mint your portfolio mandala as an NFT ("
               ++ or_default (estimated_cost mintStatus) "Cost TBD" ++ ")")
            (display b) in
      modify (set_mintButton
                (Some (mkButton (textContent b') (disabled b') (minted b')
                         (loading b') (title b') "inline-block")))
  end.

Definition checkMintStatus (traderAddress : option string)
    (reply : Settled MintStatus) : Eff.t t unit :=
  s <- get ;;
  match traderAddress with
  | None => ret tt
  | Some a =>
      if falsy_string (contractAddress s) || falsy_string traderAddress
      then ret tt
      else
        try_catch
          (emit (FetchMintStatus a) ;;
           data <- await reply ;;
           updateMintButton a data)
          (fun error =>
             emit (ConsoleError "Error checking mint status:" error))
  end.

Definition setMintingState (minting : bool) : Eff.t t unit :=
  s <- get ;;
  match mintButton s with
  | None => ret tt
  | Some b =>
      if minting then
        modify (set_mintButton
                  (Some (mkButton "⏳ Minting..." true (minted b) true
                           (title b) (display b))))
      else
        modify (set_mintButton
                  (Some (mkButton (textContent b) (disabled b) (minted b)
                           false (title b) (display b))))
  end.

Definition onMintSuccess (tokenId : option Z) (txHash : string)
  : Eff.t t unit :=
  s <- get ;;
  match mintButton s with
  | None => ret tt
  | Some b =>
      modify (set_mintButton
                (Some (mkButton "✅ Minted!" true true (loading b)
                         (title b) (display b))))
  end ;;
  emit (ShowMintSuccessModal tokenId txHash) ;;
  s <- get ;;
  if negb (falsy_string (getConnectedAccount (walletConnection s)))
  then emit (SetTimeout 2000)
  else ret tt.

(** [setTimeout(checkStatus, 5000)] *)
Definition setTimeout_checkStatus (p : Poll) : Eff.t t unit :=
  emit (SetTimeout 5000) ;;
  modify (fun s => set_timers (timers s ++ [p])%list s).

(** One call of the closure [checkStatus]; [p] holds the counter as the
    call finds it and [reply] is what the fetch (with [response.json()])
    settles to. *)
Definition checkStatus (p : Poll) (reply : Settled StatusData)
  : Eff.t t unit :=
  let attempts' := S (attempts p) in
  let p' := mkPoll attempts' (txHash p) (traderAddress p) in
  try_catch
    (emit (FetchStatus (txHash p) (traderAddress p)) ;;
     data <- await reply ;;
     if status_is data "confirmed" then
       MandalaApp.showToast "🎉 NFT minted successfully!" "success" ;;
       onMintSuccess (token_id data) (txHash p)
     else if status_is data "failed" then
       throw (Error (or_default (status_error data) "Transaction failed"))
     else if status_is data "pending" && (attempts' <? maxAttempts)%nat then
       setTimeout_checkStatus p'
     else
       throw (Error "Transaction timeout"))
    (fun error =>
       if (attempts' <? maxAttempts)%nat
       then setTimeout_checkStatus p'
       else throw error).

(** [waitForTransactionConfirmation]: the first call of [checkStatus] is
    awaited inside the outer [try]; every later call is made by a timer. *)
Definition waitForTransactionConfirmation (txHash traderAddress : string)
    (reply : Settled StatusData) : Eff.t t unit :=
  try_catch
    (checkStatus (mkPoll 0 txHash traderAddress) reply)
    (fun error =>
       emit (ConsoleError "Transaction confirmation error:" error) ;;
       MandalaApp.showToast
         ("Transaction may have failed: " ++ message error) "error").

(** A 5000 ms timer fires: the oldest waiting closure is called, with
    [endpoint k] the reply to its [k]-th fetch.  Nothing awaits that call,
    so an error it throws is an unhandled rejection. *)
Definition fireTimer (endpoint : nat -> Settled StatusData) : Eff.t t unit :=
  s <- get ;;
  match timers s with
  | [] => ret tt
  | p :: rest =>
      modify (set_timers rest) ;;
      try_catch
        (checkStatus p (endpoint (S (attempts p))))
        (fun error => emit (UnhandledRejection error))
  end.

Fixpoint fireTimers (n : nat) (endpoint : nat -> Settled StatusData)
  : Eff.t t unit :=
  match n with
  | O => ret tt
  | S k => fireTimer endpoint ;; fireTimers k endpoint
  end.

(** The whole polling of one transaction: the awaited first call, then
    [n] timer periods. *)
Definition polling (n : nat) (endpoint : nat -> Settled StatusData)
    (txHash traderAddress : string) : Eff.t t unit :=
  waitForTransactionConfirmation txHash traderAddress (endpoint 1%nat) ;;
  fireTimers n endpoint.

(** What the outside answers during one [mintNFT]. *)
Record MintReplies : Type := mkMintReplies {
  prepareReply : Settled PrepareData;
  userConfirms : bool;
  accountsReply : Settled (list string);
  sendReply : Settled string;
  firstStatusReply : Settled StatusData
}.

Definition showMintConfirmation (r : MintReplies) (transaction : string)
    (gasEstimate : option string) : Eff.t t bool :=
  emit ShowMintConfirmation ;;
  ret (userConfirms r).

Definition executeTransaction (h : Host) (r : MintReplies)
    (transactionData : string) : Eff.t t string :=
  try_catch
    (accounts <-
       (if ethereum h
        then emit (Request "eth_accounts") ;; await (accountsReply r)
        else throw (Error (typeErrorMessage h))) ;;
     match accounts with
     | [] => throw (Error "No wallet connected")
     | from :: _ =>
         emit (Request "eth_sendTransaction") ;;
         await (sendReply r)
     end)
    (fun error =>
       match code error with
       | Some 4001%Z => throw (Error "Transaction rejected by user")
       | _ => throw (Error ("Transaction failed: " ++ message error))
       end).

Definition mintNFT (h : Host) (r : MintReplies) (traderAddress : string)
  : Eff.t t unit :=
  s <- get ;;
  if isMinting s then ret tt
  else if negb (isWalletConnected (walletConnection s)) then
    MandalaApp.showToast "Please connect your wallet first" "error"
  else if negb (truthy (canUserMint (walletConnection s) traderAddress)) then
    MandalaApp.showToast
      "You can only mint NFTs for your own wallet address" "error"
  else
    modify (set_isMinting true) ;;
    setMintingState true ;;
    try_finally
      (try_catch
         (emit (FetchPrepare traderAddress) ;;
          data <- await (prepareReply r) ;;
          if negb (success data) then
            throw (Error (or_default (prepare_error data)
                            "Failed to prepare minting transaction"))
          else
            confirmed <- showMintConfirmation r (transaction data)
                           (gas_estimate data) ;;
            if negb confirmed then
              setMintingState false ;;
              modify (set_isMinting false)
            else
              txHash <- executeTransaction h r (transaction data) ;;
              if negb (String.eqb txHash "") then
                MandalaApp.showToast
                  "Transaction submitted! Waiting for confirmation..." "info" ;;
                waitForTransactionConfirmation txHash traderAddress
                  (firstStatusReply r)
              else ret tt)
         (fun error =>
            emit (ConsoleError "Minting error:" error) ;;
            MandalaApp.showToast
              (if String.eqb (message error) "" then "Minting failed"
               else message error) "error"))
      (setMintingState false ;;
       modify (set_isMinting false)).

End NFTMinting.

Import WalletConnection NFTMinting.

(** ** Observations on traces *)

Definition is_request (method : string) (ev : Event) : bool :=
  match ev with
  | Request m => String.eqb m method
  | _ => false
  end.

(** How many times the provider was asked for [method]. *)
Definition requests (method : string) (tr : list Event) : nat :=
  List.length (filter (is_request method) tr).

Definition is_fetchStatus (ev : Event) : bool :=
  match ev with
  | FetchStatus _ _ => true
  | _ => false
  end.

(** How many times the status endpoint was fetched. *)
Definition fetches (tr : list Event) : nat :=
  List.length (filter is_fetchStatus tr).

(** The transaction was handed to the wallet for signature and broadcast. *)
Definition submitted (tr : list Event) : Prop :=
  In (Request "eth_sendTransaction") tr.

(** The page once [setTimeout(checkStatus, 5000)] has queued the closure
    [p] with its counter incremented. *)
Definition rescheduled (p : Poll) (s : NFTMinting.t) : NFTMinting.t :=
  set_timers
    (timers s ++ [mkPoll (S (attempts p)) (txHash p) (traderAddress p)])%list s.

(** The reply is anything but a [confirmed] status. *)
Definition not_confirmed (reply : Settled StatusData) : Prop :=
  match reply with
  | Resolved d => status_is d "confirmed" = false
  | Rejected _ => True
  end.

(** The error a non-confirmed reply ends in when no attempt is left. *)
Definition final_error (reply : Settled StatusData) : JsError :=
  match reply with
  | Rejected e => e
  | Resolved d =>
      if status_is d "failed"
      then Error (or_default (status_error d) "Transaction failed")
      else Error "Transaction timeout"
  end.

(** The events of [j] attempts that each end in a new timer. *)
Fixpoint retries (j : nat) (txHash traderAddress : string) : list Event :=
  match j with
  | O => []
  | S k => FetchStatus txHash traderAddress :: SetTimeout 5000
             :: retries k txHash traderAddress
  end.

(** The mint button is on the page and disabled. *)
Definition buttonDisabled (s : NFTMinting.t) : Prop :=
  exists b, mintButton s = Some b /\ disabled b = true.

(** ** Sample inputs *)

Module Sample.

Definition account : string := "0x1234567890abcdef1234567890abcdef12345678".

Definition host : Host :=
  mkHost true false "Cannot read properties of null (reading 'request')".

(** A session connected with [account] on the target chain. *)
Definition wallet : WalletConnection.t :=
  WalletConnection.mk true (Some account) (Some WindowEthereum)
    (Some targetChainId).

(** The same session while the wallet is on Ethereum mainnet. *)
Definition mainnetWallet : WalletConnection.t :=
  WalletConnection.mk true (Some account) (Some WindowEthereum) (Some "0x1").

(** The provider does not know the target chain / the user refuses the
    switch. *)
Definition unrecognizedChain : JsError :=
  mkError (Some 4902%Z) "Unrecognized chain ID".
Definition userRejected : JsError :=
  mkError (Some 4001%Z) "User rejected the request.".

Definition switchUnknown : NetworkReplies :=
  mkNetworkReplies (Resolved "0x1") (Rejected unrecognizedChain) (Resolved tt).
Definition switchRefused : NetworkReplies :=
  mkNetworkReplies (Resolved "0x1") (Rejected userRejected) (Resolved tt).

(** A provider that grants everything [connectWallet] asks for. *)
Definition grantingReplies : ConnectReplies :=
  mkConnectReplies (Resolved [account]) (Resolved targetChainId)
    (mkNetworkReplies (Resolved targetChainId) (Resolved tt) (Resolved tt)).

(** [wallet] after a disconnect followed by an [accountsChanged] event. *)
Definition reconnectedByEvent : WalletConnection.t :=
  after host (AccountsChanged [account] (Resolved targetChainId))
    (Eff.state (disconnectWallet wallet)).

Definition button : MintButton :=
  mkButton "Mint NFT" false false false "" "none".

(** No mint in flight, no timer waiting. *)
Definition page : NFTMinting.t :=
  NFTMinting.mk (Some "0x98Ef066332b16d0f427ae936F0a3662c5ae68890") false
    wallet (Some button) [].

Definition pending : StatusData := mkStatusData (Some "pending") None None.
Definition confirmed : StatusData := mkStatusData (Some "confirmed") (Some 7%Z) None.
Definition failed : StatusData :=
  mkStatusData (Some "failed") None (Some "execution reverted").

(** [pending] for the first [k] fetches, then [last] for ever. *)
Definition pendingThen (k : nat) (last : StatusData) (attempt : nat)
  : Settled StatusData :=
  if (attempt <=? k)%nat then Resolved pending else Resolved last.

(** [failed] to the first fetch, [confirmed] from the second on. *)
Definition failedThenConfirmed (attempt : nat) : Settled StatusData :=
  if (attempt <=? 1)%nat then Resolved failed else Resolved confirmed.

(** A fetch that fails on the network. *)
Definition networkError : JsError := mkError None "Failed to fetch".

(** The first fetch fails, every later one answers [confirmed]. *)
Definition blipThenConfirmed (attempt : nat) : Settled StatusData :=
  if (attempt <=? 1)%nat then Rejected networkError else Resolved confirmed.

(** Every fetch fails. *)
Definition alwaysFailing (attempt : nat) : Settled StatusData :=
  Rejected networkError.

(** The reply of the status service for an account that holds token 7. *)
Definition mintedStatus : MintStatus := mkMintStatus true (Some 7%Z) None.

(** The page after [checkMintStatus] fetched [mintedStatus] for [account]. *)
Definition mintedPage : NFTMinting.t :=
  Eff.state (checkMintStatus (Some account) (Resolved mintedStatus) page).

(** Replies under which nothing outside the client stops a mint: the
    preparer answers success, the user confirms, the wallet signs. *)
Definition willingReplies : MintReplies :=
  mkMintReplies (Resolved (mkPrepareData true None "0xa0712d68" None)) true
    (Resolved [account]) (Resolved "0xfeed") (Resolved pending).

(** The same with the user clicking Cancel. *)
Definition decliningReplies : MintReplies :=
  mkMintReplies (Resolved (mkPrepareData true None "0xa0712d68" None)) false
    (Resolved [account]) (Resolved "0xfeed") (Resolved pending).

End Sample.

(** * Properties *)

(** ** Strings *)

Lemma substring_all (s : string) : substring 0 (String.length s) s = s.
Proof. induction s as [|c s IH]; simpl; [reflexivity | now rewrite IH]. Qed.

Lemma substring_cut (s : string) (n : nat) :
  n <= String.length s ->
  s = substring 0 n s ++ substring n (String.length s - n) s.
Proof.
  revert n; induction s as [|c s IH]; intros [|n] Hn; simpl in *;
    try reflexivity; try lia.
  - now rewrite substring_all.
  - f_equal. apply IH. lia.
Qed.

Lemma substring_length (s : string) (n m : nat) :
  n + m <= String.length s -> String.length (substring n m s) = m.
Proof.
  revert n m; induction s as [|c s IH]; intros [|n] [|m] H; simpl in *;
    try reflexivity; try lia.
  - f_equal. apply (IH 0 m). lia.
  - apply (IH n 0). lia.
  - apply (IH n (S m)). simpl. lia.
Qed.

Lemma substring_of_suffix (s : string) (k n m : nat) :
  k <= String.length s ->
  substring n m (substring k (String.length s - k) s) = substring (k + n) m s.
Proof.
  revert k; induction s as [|c s IH]; intros [|k] Hk; simpl in *; try lia.
  - reflexivity.
  - now rewrite substring_all.
  - apply IH. lia.
Qed.

Lemma slice_head (a : string) :
  6 <= String.length a -> slice a 0 (Some 6%Z) = substring 0 6 a.
Proof.
  intros H. unfold slice.
  change (0 <? 0)%Z with false. change (6 <? 0)%Z with false. cbv iota.
  f_equal; lia.
Qed.

Lemma slice_tail (a : string) :
  4 <= String.length a ->
  slice a (-4) None = substring (String.length a - 4) 4 a.
Proof.
  intros H. unfold slice. change (-4 <? 0)%Z with true. cbv iota.
  f_equal; lia.
Qed.

(** ** [formatAddress] *)

(** The formatter of [WalletConnection] has no length test: it agrees with
    the one of [MandalaApp] from 10 characters on, which covers every
    account address, and differs on [null] and on shorter strings. *)
Lemma WalletConnection_formatAddress_long (a : string) :
  10 <= String.length a ->
  Some (WalletConnection.formatAddress (Some a))
    = MandalaApp.formatAddress (Some a).
Proof.
  intros Hlen. unfold WalletConnection.formatAddress, MandalaApp.formatAddress.
  assert (Hne : falsy_string (Some a) = false).
  { destruct a; [simpl in Hlen; lia | reflexivity]. }
  assert (Hlt : (String.length a <? 10)%nat = false) by (apply Nat.ltb_ge; lia).
  rewrite Hne, Hlt. reflexivity.
Qed.

(** On a non-empty string shorter than 10 the two slices overlap or repeat
    the whole string, so the result is longer than the argument. *)
Lemma WalletConnection_formatAddress_longer (a : string) :
  a <> "" ->
  String.length a < 10 ->
  String.length a < String.length (WalletConnection.formatAddress (Some a)).
Proof.
  intros Hne Hlen.
  do 10 (destruct a as [|? a];
         [try contradiction; try (vm_compute; lia)|]).
  cbn [String.length] in Hlen. lia.
Qed.

(** C9. [MandalaApp.formatAddress] gives its argument back when it is [null]
    or shorter than 10 characters, and otherwise the first 6 characters,
    three dots and the last 4 characters; the two examples of the
    specification evaluate as stated.  [WalletConnection.formatAddress]
    follows the same rule from 10 characters on only: it has no length
    test, gives the empty string for [null] and for the empty string, and
    for every other string shorter than 10 the two slices around three
    dots, which is longer than its argument and so never the argument
    itself. *)
Theorem formatAddress_spec :
  MandalaApp.formatAddress None = None /\
  (forall a : string,
      String.length a < 10 ->
      MandalaApp.formatAddress (Some a) = Some a) /\
  (forall a : string,
      10 <= String.length a ->
      exists first6 middle last4 : string,
        a = first6 ++ middle ++ last4 /\
        String.length first6 = 6 /\
        String.length last4 = 4 /\
        MandalaApp.formatAddress (Some a) = Some (first6 ++ "..." ++ last4)) /\
  MandalaApp.formatAddress (Some "0x1234567890abcdef1234567890abcdef12345678")
    = Some "0x1234...5678" /\
  MandalaApp.formatAddress (Some "0x1") = Some "0x1" /\
  WalletConnection.formatAddress None = "" /\
  WalletConnection.formatAddress (Some "") = "" /\
  (forall a : string,
      10 <= String.length a ->
      Some (WalletConnection.formatAddress (Some a))
        = MandalaApp.formatAddress (Some a)) /\
  (forall a : string,
      a <> "" ->
      String.length a < 10 ->
      WalletConnection.formatAddress (Some a)
        = slice a 0 (Some 6%Z) ++ "..." ++ slice a (-4) None /\
      String.length a
        < String.length (WalletConnection.formatAddress (Some a)) /\
      WalletConnection.formatAddress (Some a) <> a) /\
  WalletConnection.formatAddress
      (Some "0x1234567890abcdef1234567890abcdef12345678") = "0x1234...5678" /\
  WalletConnection.formatAddress (Some "0x1") = "0x1...0x1".
Proof.
  split; [reflexivity|].
  split.
  { intros a Hlen. unfold MandalaApp.formatAddress.
    apply Nat.ltb_lt in Hlen. rewrite Hlen, orb_true_r. reflexivity. }
  split.
  2:{ split; [reflexivity|]. split; [reflexivity|].
      split; [reflexivity|]. split; [reflexivity|].
      split; [exact WalletConnection_formatAddress_long|].
      split; [|split; reflexivity].
      intros a Hne Hlen.
      pose proof (WalletConnection_formatAddress_longer a Hne Hlen) as Hlonger.
      split; [|split; [exact Hlonger|]].
      - destruct a; [contradiction | reflexivity].
      - intros Heq. rewrite Heq in Hlonger. lia. }
  intros a Hlen.
  set (rest := substring 6 (String.length a - 6) a).
  assert (Hrest : String.length rest = String.length a - 6)
    by (apply substring_length; lia).
  exists (substring 0 6 a),
         (substring 0 (String.length rest - 4) rest),
         (substring (String.length a - 4) 4 a).
  repeat split.
  - rewrite (substring_cut a 6) at 1 by lia. f_equal. fold rest.
    rewrite (substring_cut rest (String.length rest - 4)) at 1 by lia.
    f_equal. rewrite Hrest.
    replace (String.length a - 6 - (String.length a - 6 - 4)) with 4 by lia.
    unfold rest. rewrite substring_of_suffix by lia. f_equal. lia.
  - apply substring_length. lia.
  - apply substring_length. lia.
  - unfold MandalaApp.formatAddress.
    assert (Hne : falsy_string (Some a) = false).
    { destruct a; [simpl in Hlen; lia | reflexivity]. }
    rewrite Hne. simpl orb.
    assert (Hlt : (String.length a <? 10)%nat = false) by (apply Nat.ltb_ge; lia).
    rewrite Hlt, slice_head, slice_tail by lia. reflexivity.
Qed.

(** The theorem at a 3-character and at a 13-character argument. *)
Lemma formatAddress_spec_witness :
  MandalaApp.formatAddress (Some "0xa") = Some "0xa" /\
  exists first6 middle last4 : string,
    "0x123456789ab" = first6 ++ middle ++ last4 /\
    String.length first6 = 6 /\
    String.length last4 = 4 /\
    MandalaApp.formatAddress (Some "0x123456789ab")
      = Some (first6 ++ "..." ++ last4).
Proof.
  destruct formatAddress_spec as (_ & Hshort & Hlong & _).
  split.
  - apply Hshort. simpl. lia.
  - apply Hlong. simpl. lia.
Defined.

(** Against the rule "null or shorter than 10 characters comes back
    unchanged": the formatter of [WalletConnection] turns ['0x1'] into
    ['0x1...0x1'] and [null] into the empty string. *)
Example WalletConnection_formatAddress_short :
  WalletConnection.formatAddress (Some "0x1") = "0x1...0x1" /\
  WalletConnection.formatAddress (Some "0x1") <> "0x1" /\
  WalletConnection.formatAddress None = "".
Proof. split; [reflexivity|]. split; [discriminate | reflexivity]. Qed.

(** ** [canUserMint] *)

Lemma toLowerCase_empty (a : string) : toLowerCase a = "" -> a = "".
Proof. destruct a; simpl; [reflexivity | discriminate]. Qed.

Lemma isOnCorrectNetwork_iff (s : WalletConnection.t) :
  isOnCorrectNetwork s = true <-> chainId s = Some targetChainId.
Proof.
  unfold isOnCorrectNetwork. destruct (chainId s) as [c|].
  - rewrite String.eqb_eq. split; congruence.
  - split; discriminate.
Qed.

(** The value of the [&&] chain, case by case. *)
Lemma canUserMint_cases (s : WalletConnection.t) (target : string) :
  canUserMint s target =
    if negb (isConnected s) then JsBool false
    else match currentAccount s with
         | None => JsNull
         | Some a =>
             if String.eqb a "" then JsString ""
             else if String.eqb (toLowerCase a) (toLowerCase target)
                  then JsBool (isOnCorrectNetwork s)
                  else JsBool false
         end.
Proof.
  unfold canUserMint, js_and.
  destruct (isConnected s); simpl; [|reflexivity].
  destruct (currentAccount s) as [a|]; [|reflexivity].
  simpl. destruct (String.eqb_spec a ""); subst; simpl; [reflexivity|].
  destruct (String.eqb (toLowerCase a) (toLowerCase target)); reflexivity.
Qed.

(** C7. [canUserMint] is [false] whenever the session is not connected,
    whatever the other fields hold; and for a target account (a non-empty
    string, as every address is) it is [true] exactly when the session is
    connected, its account equals the target up to letter case and its
    chain id is the target chain. *)
Theorem canUserMint_spec (s : WalletConnection.t) (target : string) :
  (isConnected s = false -> canUserMint s target = JsBool false) /\
  (target <> "" ->
   (canUserMint s target = JsBool true <->
    isConnected s = true /\
    (exists a, currentAccount s = Some a /\
               toLowerCase a = toLowerCase target) /\
    chainId s = Some targetChainId)).
Proof.
  rewrite canUserMint_cases. split.
  - intros ->. reflexivity.
  - intros Htarget. rewrite <- isOnCorrectNetwork_iff.
    destruct (isConnected s); simpl.
    2:{ split; [discriminate | intros (H & _); discriminate]. }
    destruct (currentAccount s) as [a|].
    2:{ split; [discriminate | intros (_ & (a & H & _) & _); discriminate]. }
    destruct (String.eqb_spec a "") as [->|Ha].
    { split; [discriminate|]. intros (_ & (a & [= <-] & Hlow) & _).
      symmetry in Hlow. apply toLowerCase_empty in Hlow. contradiction. }
    destruct (String.eqb_spec (toLowerCase a) (toLowerCase target)) as [Hlow|Hlow].
    + split.
      * intros [= ->]. repeat split. exists a. split; [reflexivity | exact Hlow].
      * intros (_ & _ & ->). reflexivity.
    + split; [discriminate|].
      intros (_ & (a' & [= <-] & Hlow') & _). contradiction.
Qed.

(** The theorem at a connected session on the target chain whose account
    differs from the target in letter case only. *)
Lemma canUserMint_spec_witness :
  canUserMint
    (WalletConnection.mk true (Some "0xABCdef") (Some WindowEthereum)
       (Some "0x13882"))
    "0xabcDEF" = JsBool true.
Proof.
  apply (proj2 (canUserMint_spec _ "0xabcDEF")).
  - discriminate.
  - repeat split. exists "0xABCdef". split; reflexivity.
Defined.

(** What [mintNFT] and [updateMintButton] test is the truthiness of the
    value; no assumption on the target is needed for that. *)
Lemma canUserMint_truthy (s : WalletConnection.t) (target : string) :
  truthy (canUserMint s target) = true <->
  isConnected s = true /\
  (exists a, currentAccount s = Some a /\ a <> "" /\
             toLowerCase a = toLowerCase target) /\
  chainId s = Some targetChainId.
Proof.
  rewrite canUserMint_cases, <- isOnCorrectNetwork_iff.
  destruct (isConnected s); simpl.
  2:{ split; [discriminate | intros (H & _); discriminate]. }
  destruct (currentAccount s) as [a|].
  2:{ split; [discriminate | intros (_ & (a & H & _) & _); discriminate]. }
  destruct (String.eqb_spec a "") as [->|Ha].
  { split; [discriminate|]. intros (_ & (a & [= <-] & Hne & _) & _).
    contradiction. }
  destruct (String.eqb_spec (toLowerCase a) (toLowerCase target)) as [Hlow|Hlow];
    simpl.
  - split.
    + intros ->. repeat split. exists a. repeat split; assumption.
    + intros (_ & _ & ->). reflexivity.
  - split; [discriminate|].
    intros (_ & (a' & [= <-] & _ & Hlow') & _). contradiction.
Qed.

(** The one place where truthiness and [true] part: an empty account
    string stops the [&&] chain and is itself the value returned. *)
Example canUserMint_empty_account :
  canUserMint
    (WalletConnection.mk true (Some "") (Some WindowEthereum)
       (Some targetChainId)) "" = JsString "".
Proof. reflexivity. Qed.

(** ** Running the monad *)

(** Unfold the monad's plumbing and nothing else (in particular no string
    comparison). *)
Ltac eff_run :=
  unfold Eff.try_catch, Eff.try_finally, Eff.bind, Eff.ret, Eff.get,
    Eff.emit, Eff.modify, Eff.throw, Eff.await, MandalaApp.showToast,
    WalletConnection.showError, WalletConnection.updateUI,
    getConnectedAccount, isWalletConnected;
  cbn [Eff.bind Eff.get Eff.ret Eff.emit Eff.modify Eff.throw Eff.await
       Eff.try_catch Eff.try_finally Eff.result Eff.state Eff.trace
       MandalaApp.showToast WalletConnection.showError
       WalletConnection.updateUI fst snd app negb andb orb
       code message
       isConnected currentAccount provider chainId
       ethereum mandalaGenerator typeErrorMessage
       chainIdReply switchReply addReply
       requestAccountsReply accountChainIdReply networkReplies
       textContent disabled minted loading title display
       attempts txHash traderAddress
       contractAddress isMinting walletConnection mintButton timers
       set_isMinting set_mintButton set_timers
       has_minted ms_token_id estimated_cost
       success prepare_error transaction gas_estimate
       status token_id status_error
       prepareReply userConfirms accountsReply sendReply firstStatusReply
       isWalletConnected getConnectedAccount].

(** ** [ensureCorrectNetwork] *)

(** C8. On a chain other than the target, when the switch request is
    rejected with code 4902 the provider is asked once to add the network
    and is not asked to switch a second time; when it is rejected with any
    other error the call fails (returns [false] after the error toast)
    without asking to add the network. *)
Theorem ensureCorrectNetwork_switch_rejected
    (h : Host) (r : NetworkReplies) (s : WalletConnection.t)
    (current : string) (switchError : JsError) :
  provider s = Some WindowEthereum ->
  chainIdReply r = Resolved current ->
  current <> targetChainId ->
  switchReply r = Rejected switchError ->
  let out := ensureCorrectNetwork h r s in
  (code switchError = Some 4902%Z ->
   requests "wallet_addEthereumChain" (Eff.trace out) = 1 /\
   requests "wallet_switchEthereumChain" (Eff.trace out) = 1) /\
  (code switchError <> Some 4902%Z ->
   Eff.result out = Normal false /\
   requests "wallet_addEthereumChain" (Eff.trace out) = 0 /\
   requests "wallet_switchEthereumChain" (Eff.trace out) = 1 /\
   In (Toast "Please switch to Polygon Amoy testnet manually." "error")
      (Eff.trace out)).
Proof.
  intros Hprov Hchain Hneq Hswitch out. subst out.
  apply String.eqb_neq in Hneq.
  destruct s as [conn acct prov chain], r as [chainR switchR addR].
  cbn [provider chainIdReply switchReply] in *. subst prov chainR switchR.
  unfold ensureCorrectNetwork, request. eff_run.
  rewrite Hneq. eff_run.
  unfold is4902. split.
  - intros ->. change (4902 =? 4902)%Z with true. eff_run.
    destruct addR; eff_run; split; reflexivity.
  - intros Hcode.
    assert (Hnot : match code switchError with
                   | Some c => (c =? 4902)%Z
                   | None => false
                   end = false).
    { destruct (code switchError) as [c|]; [|reflexivity].
      apply Z.eqb_neq. congruence. }
    rewrite Hnot. eff_run. repeat split; try reflexivity.
    simpl. auto.
Qed.

(** The theorem at a session on Ethereum mainnet, once with the 4902
    rejection and once with a user rejection (4001). *)
Lemma ensureCorrectNetwork_switch_rejected_witness :
  requests "wallet_addEthereumChain"
    (Eff.trace (ensureCorrectNetwork Sample.host Sample.switchUnknown
                  Sample.mainnetWallet)) = 1 /\
  Eff.result (ensureCorrectNetwork Sample.host Sample.switchRefused
                Sample.mainnetWallet) = Normal false.
Proof.
  split.
  - destruct (ensureCorrectNetwork_switch_rejected Sample.host
                Sample.switchUnknown Sample.mainnetWallet "0x1"
                Sample.unrecognizedChain
                eq_refl eq_refl ltac:(discriminate) eq_refl) as [H _].
    exact (proj1 (H eq_refl)).
  - destruct (ensureCorrectNetwork_switch_rejected Sample.host
                Sample.switchRefused Sample.mainnetWallet "0x1"
                Sample.userRejected
                eq_refl eq_refl ltac:(discriminate) eq_refl) as [_ H].
    exact (proj1 (H ltac:(discriminate))).
Defined.

(** ** The stored provider after a disconnect *)

Lemma request_without_provider {A} (h : Host) (method : string)
    (reply : Settled A) (s : WalletConnection.t) :
  provider s = None ->
  request h method reply s = (Throw (Error (typeErrorMessage h)), s, []).
Proof.
  intros Hnone. unfold request. eff_run. rewrite Hnone. reflexivity.
Qed.

(** No call made after construction gives the object a provider again:
    [init] holds the only such assignment and runs from the constructor. *)
Lemma provider_stays_null (h : Host) (c : Call) (s : WalletConnection.t) :
  provider s = None -> provider (after h c s) = None.
Proof.
  intros Hnone. destruct s as [conn acct prov chain].
  cbn [provider] in Hnone. subst prov.
  destruct c as [r| |accounts reply|c'| |r]; unfold after.
  - unfold connectWallet. destruct (ethereum h); eff_run; [|reflexivity].
    unfold request. eff_run. reflexivity.
  - reflexivity.
  - unfold handleAccountsChanged. destruct accounts as [|a0 rest];
      [reflexivity|].
    unfold request. eff_run. reflexivity.
  - reflexivity.
  - reflexivity.
  - reflexivity.
Qed.

Lemma AfterDisconnect_provider (h : Host) (s : WalletConnection.t) :
  AfterDisconnect h s -> provider s = None.
Proof.
  induction 1 as [s|c s _ IH].
  - reflexivity.
  - apply provider_stays_null, IH.
Qed.

Lemma parseWalletError_TypeError (msg : string) :
  parseWalletError (Error msg) =
    if includes msg "User rejected" then "Connection rejected by user"
    else "Connection failed: " ++ msg.
Proof. reflexivity. Qed.

(** Before any disconnect the same replies connect the wallet. *)
Example connectWallet_succeeds_after_init :
  Eff.result
    (connectWallet Sample.host Sample.grantingReplies
       (Eff.state (init Sample.host (Resolved []) (Resolved targetChainId)
                     constructed))) = Normal true.
Proof. reflexivity. Qed.

(** C10. In every state reached after [disconnectWallet] has run,
    [connectWallet] returns [false] and shows an error toast, whether or not
    the page still has [window.ethereum]: with it, the call dereferences the
    stored provider, which is [null], and the [TypeError] lands in the
    [catch]; without it, the call stops at the missing-wallet message. *)
Theorem connectWallet_fails_after_disconnect
    (h : Host) (r : ConnectReplies) (s : WalletConnection.t) :
  AfterDisconnect h s ->
  let out := connectWallet h r s in
  Eff.result out = Normal false /\
  Eff.state out = s /\
  requests "eth_requestAccounts" (Eff.trace out) = 0 /\
  exists msg, In (Toast msg "error") (Eff.trace out).
Proof.
  intros Hs out. subst out. apply AfterDisconnect_provider in Hs.
  unfold connectWallet. destruct (ethereum h); eff_run.
  - unfold Eff.try_catch, Eff.bind.
    rewrite request_without_provider by exact Hs. eff_run.
    repeat split.
    exists (parseWalletError (Error (typeErrorMessage h))).
    right. left. reflexivity.
  - repeat split. eexists. left. reflexivity.
Qed.

(** The theorem on a page that has [window.ethereum], for a session that
    was connected, disconnected, and then received an [accountsChanged]
    event from the provider. *)
Lemma connectWallet_fails_after_disconnect_witness :
  Eff.result (connectWallet Sample.host Sample.grantingReplies
                Sample.reconnectedByEvent) = Normal false.
Proof.
  apply (connectWallet_fails_after_disconnect Sample.host
           Sample.grantingReplies Sample.reconnectedByEvent).
  apply after_call, after_disconnect.
Defined.

(** ** One call of [checkStatus] *)

Lemma status_is_pending_not_confirmed (d : StatusData) :
  status d = Some "pending" -> status_is d "confirmed" = false.
Proof. unfold status_is. intros ->. reflexivity. Qed.

(** With attempts left, every reply but [confirmed] ends in a new timer. *)
Lemma checkStatus_reschedules (p : Poll) (reply : Settled StatusData)
    (s : NFTMinting.t) :
  S (attempts p) < maxAttempts ->
  not_confirmed reply ->
  checkStatus p reply s =
    (Normal tt, rescheduled p s,
     [FetchStatus (txHash p) (traderAddress p); SetTimeout 5000]).
Proof.
  intros Hlt Hnc. apply Nat.ltb_lt in Hlt.
  unfold checkStatus, setTimeout_checkStatus, rescheduled.
  destruct reply as [d|e]; cbn [not_confirmed] in Hnc; eff_run.
  - rewrite Hnc, Hlt.
    destruct (status_is d "failed"); eff_run; [reflexivity|].
    destruct (status_is d "pending"); eff_run; reflexivity.
  - rewrite Hlt. eff_run. reflexivity.
Qed.

(** With no attempt left, every reply but [confirmed] ends in an error. *)
Lemma checkStatus_exhausted (p : Poll) (reply : Settled StatusData)
    (s : NFTMinting.t) :
  maxAttempts <= S (attempts p) ->
  not_confirmed reply ->
  checkStatus p reply s =
    (Throw (final_error reply), s,
     [FetchStatus (txHash p) (traderAddress p)]).
Proof.
  intros Hge Hnc. apply Nat.ltb_ge in Hge.
  unfold checkStatus, final_error.
  destruct reply as [d|e]; cbn [not_confirmed] in Hnc; eff_run.
  - rewrite Hnc, Hge.
    destruct (status_is d "failed"); eff_run; [reflexivity|].
    rewrite andb_false_r. eff_run. reflexivity.
  - rewrite Hge. eff_run. reflexivity.
Qed.

Lemma onMintSuccess_effect (tok : option Z) (tx : string) (s : NFTMinting.t) :
  let out := onMintSuccess tok tx s in
  Eff.result out = Normal tt /\
  timers (Eff.state out) = timers s /\
  isMinting (Eff.state out) = isMinting s /\
  fetches (Eff.trace out) = 0 /\
  In (ShowMintSuccessModal tok tx) (Eff.trace out) /\
  (forall e, ~ In (UnhandledRejection e) (Eff.trace out)).
Proof.
  destruct s as [ca im w b q]. unfold onMintSuccess.
  destruct b as [b|]; eff_run;
    destruct (falsy_string (currentAccount w)); eff_run;
    repeat split; try (left; reflexivity);
    intros e [H|H]; try discriminate; try destruct H as [H|H];
    try discriminate; assumption.
Qed.

(** A [confirmed] reply runs the success path, at any attempt. *)
Lemma checkStatus_confirmed (p : Poll) (d : StatusData) (s : NFTMinting.t) :
  status_is d "confirmed" = true ->
  checkStatus p (Resolved d) s =
    let out := onMintSuccess (token_id d) (txHash p) s in
    (Eff.result out, Eff.state out,
     FetchStatus (txHash p) (traderAddress p)
       :: Toast "🎉 NFT minted successfully!" "success" :: Eff.trace out).
Proof.
  intros Hc. unfold checkStatus. eff_run. rewrite Hc.
  destruct (onMintSuccess_effect (token_id d) (txHash p) s) as (Hr & _).
  destruct (onMintSuccess (token_id d) (txHash p) s) as [[r s'] tr].
  cbn [Eff.result fst] in Hr. subst r. reflexivity.
Qed.

(** ** The timer-driven calls *)

Lemma set_timers_twice (q q' : list Poll) (s : NFTMinting.t) :
  set_timers q (set_timers q' s) = set_timers q s.
Proof. reflexivity. Qed.

Lemma set_timers_same (s : NFTMinting.t) : set_timers (timers s) s = s.
Proof. destruct s; reflexivity. Qed.

Lemma fetches_app (tr1 tr2 : list Event) :
  fetches (tr1 ++ tr2) = fetches tr1 + fetches tr2.
Proof. unfold fetches. rewrite filter_app, length_app. reflexivity. Qed.

Lemma fetches_retries (j : nat) (tx addr : string) :
  fetches (retries j tx addr) = j.
Proof.
  induction j as [|j IH]; [reflexivity|].
  change (fetches (retries (S j) tx addr))
    with (S (fetches (retries j tx addr))).
  now rewrite IH.
Qed.

Lemma retries_only (j : nat) (tx addr : string) (ev : Event) :
  In ev (retries j tx addr) -> ev = FetchStatus tx addr \/ ev = SetTimeout 5000.
Proof.
  induction j as [|j IH]; simpl; [tauto|].
  intros [H|[H|H]]; auto.
Qed.

Lemma fireTimers_idle (n : nat) (endpoint : nat -> Settled StatusData)
    (s : NFTMinting.t) :
  timers s = [] -> fireTimers n endpoint s = (Normal tt, s, []).
Proof.
  intros Hq. induction n as [|n IH]; [reflexivity|].
  cbn [fireTimers]. unfold Eff.bind at 1.
  unfold fireTimer at 1. eff_run. rewrite Hq. rewrite IH. reflexivity.
Qed.

Lemma fireTimer_retry (endpoint : nat -> Settled StatusData) (p : Poll)
    (s : NFTMinting.t) :
  timers s = [p] ->
  S (attempts p) < maxAttempts ->
  not_confirmed (endpoint (S (attempts p))) ->
  fireTimer endpoint s =
    (Normal tt,
     set_timers [mkPoll (S (attempts p)) (txHash p) (traderAddress p)] s,
     [FetchStatus (txHash p) (traderAddress p); SetTimeout 5000]).
Proof.
  intros Hq Hlt Hnc. unfold fireTimer. eff_run. rewrite Hq.
  rewrite (checkStatus_reschedules p _ _ Hlt Hnc). reflexivity.
Qed.

Lemma fireTimer_exhausted (endpoint : nat -> Settled StatusData) (p : Poll)
    (s : NFTMinting.t) :
  timers s = [p] ->
  maxAttempts <= S (attempts p) ->
  not_confirmed (endpoint (S (attempts p))) ->
  fireTimer endpoint s =
    (Normal tt, set_timers [] s,
     [FetchStatus (txHash p) (traderAddress p);
      UnhandledRejection (final_error (endpoint (S (attempts p))))]).
Proof.
  intros Hq Hge Hnc. unfold fireTimer. eff_run. rewrite Hq.
  rewrite (checkStatus_exhausted p _ _ Hge Hnc). reflexivity.
Qed.

Lemma fireTimer_confirmed (endpoint : nat -> Settled StatusData) (p : Poll)
    (d : StatusData) (s : NFTMinting.t) :
  timers s = [p] ->
  endpoint (S (attempts p)) = Resolved d ->
  status_is d "confirmed" = true ->
  fireTimer endpoint s =
    let out := onMintSuccess (token_id d) (txHash p) (set_timers [] s) in
    (Normal tt, Eff.state out,
     FetchStatus (txHash p) (traderAddress p)
       :: Toast "🎉 NFT minted successfully!" "success" :: Eff.trace out).
Proof.
  intros Hq Hep Hc. unfold fireTimer. eff_run. rewrite Hq, Hep.
  rewrite (checkStatus_confirmed p d _ Hc).
  destruct (onMintSuccess_effect (token_id d) (txHash p) (set_timers [] s))
    as (Hr & _).
  cbv zeta.
  destruct (onMintSuccess (token_id d) (txHash p) (set_timers [] s))
    as [[r s'] tr].
  cbn [Eff.result fst] in Hr. subst r. reflexivity.
Qed.

(** [j] timer periods in a row that each find attempts left and no
    confirmation. *)
Lemma fireTimers_retries (endpoint : nat -> Settled StatusData)
    (tx addr : string) (j m a : nat) (s : NFTMinting.t) :
  timers s = [mkPoll a tx addr] ->
  a + j < maxAttempts ->
  (forall k, a < k <= a + j -> not_confirmed (endpoint k)) ->
  fireTimers (j + m) endpoint s =
    let '(r, s', tr) :=
      fireTimers m endpoint (set_timers [mkPoll (a + j) tx addr] s) in
    (r, s', (retries j tx addr ++ tr)%list).
Proof.
  revert a s. induction j as [|j IH]; intros a s Hq Hlt Hnc.
  - rewrite Nat.add_0_r, <- Hq, set_timers_same. cbn [Nat.add retries app].
    destruct (fireTimers m endpoint s) as [[r s'] tr]. reflexivity.
  - cbn [Nat.add fireTimers]. unfold Eff.bind at 1.
    rewrite (fireTimer_retry endpoint (mkPoll a tx addr) s Hq);
      cbn [attempts txHash traderAddress]; [|lia|apply Hnc; lia].
    rewrite (IH (S a) (set_timers [mkPoll (S a) tx addr] s));
      [|reflexivity|lia|intros k Hk; apply Hnc; lia].
    rewrite set_timers_twice. replace (S a + j) with (a + S j) by lia.
    destruct (fireTimers m endpoint _) as [[r s'] tr]. reflexivity.
Qed.

(** The awaited first call followed by [j] timer periods, none of which
    sees a confirmation: the closure is left waiting with its counter at
    [j + 1]. *)
Lemma polling_retries (endpoint : nat -> Settled StatusData)
    (tx addr : string) (j m : nat) (s : NFTMinting.t) :
  timers s = [] ->
  S j < maxAttempts ->
  (forall k, 1 <= k <= S j -> not_confirmed (endpoint k)) ->
  polling (j + m) endpoint tx addr s =
    let '(r, s', tr) :=
      fireTimers m endpoint (set_timers [mkPoll (S j) tx addr] s) in
    (r, s', (retries (S j) tx addr ++ tr)%list).
Proof.
  intros Hq Hlt Hnc. unfold polling, waitForTransactionConfirmation.
  unfold Eff.bind at 1. unfold Eff.try_catch at 1.
  rewrite checkStatus_reschedules;
    cbn [attempts txHash traderAddress]; [|unfold maxAttempts in *; lia|apply Hnc; lia].
  unfold rescheduled. rewrite Hq. cbn [app attempts txHash traderAddress].
  rewrite (fireTimers_retries endpoint tx addr j m 1);
    [|reflexivity|lia|intros k Hk; apply Hnc; lia].
  rewrite set_timers_twice. cbn [Nat.add].
  destruct (fireTimers m endpoint _) as [[r s'] tr]. reflexivity.
Qed.

(** ** The polling loop as a whole *)

(** C1. When the status endpoint answers [pending] to the first 59 fetches:
    if it answers [confirmed] to the 60th, the success path runs with the
    token id of that reply after exactly 60 fetches; if it answers
    [pending] again, the 60th call ends in the error 'Transaction timeout'
    after exactly 60 fetches.  In both cases no timer is left, so however
    many timer periods [n >= 59] go by there is no 61st fetch. *)
Theorem polling_sixty_attempts
    (n : nat) (endpoint : nat -> Settled StatusData) (tx addr : string)
    (s : NFTMinting.t) :
  timers s = [] ->
  59 <= n ->
  (forall k, 1 <= k <= 59 ->
     exists d, endpoint k = Resolved d /\ status d = Some "pending") ->
  let out := polling n endpoint tx addr s in
  (forall d, endpoint 60 = Resolved d -> status d = Some "confirmed" ->
     fetches (Eff.trace out) = 60 /\
     In (ShowMintSuccessModal (token_id d) tx) (Eff.trace out) /\
     (forall e, ~ In (UnhandledRejection e) (Eff.trace out)) /\
     timers (Eff.state out) = []) /\
  (forall d, endpoint 60 = Resolved d -> status d = Some "pending" ->
     fetches (Eff.trace out) = 60 /\
     In (UnhandledRejection (Error "Transaction timeout")) (Eff.trace out) /\
     (forall tok tx', ~ In (ShowMintSuccessModal tok tx') (Eff.trace out)) /\
     timers (Eff.state out) = []).
Proof.
  intros Hq Hn Hpending out.
  assert (Hout : out =
            let '(r, s', tr) :=
              fireTimers (S (n - 59)) endpoint
                (set_timers [mkPoll 59 tx addr] s) in
            (r, s', (retries 59 tx addr ++ tr)%list)).
  { subst out. replace n with (58 + S (n - 59)) at 1 by lia.
    apply polling_retries; [exact Hq|unfold maxAttempts; lia|].
    intros k Hk. destruct (Hpending k) as (d & -> & Hd); [lia|].
    apply status_is_pending_not_confirmed, Hd. }
  clearbody out. cbn [fireTimers] in Hout. unfold Eff.bind at 1 in Hout.
  split; intros d Hep Hd.
  - rewrite (fireTimer_confirmed endpoint (mkPoll 59 tx addr) d) in Hout;
      [|reflexivity|exact Hep|unfold status_is; rewrite Hd; reflexivity].
    cbn [txHash traderAddress] in Hout. cbv zeta in Hout.
    destruct (onMintSuccess_effect (token_id d) tx
                (set_timers [] (set_timers [mkPoll 59 tx addr] s)))
      as (_ & Hq' & _ & Hf & Hin & Hun).
    rewrite fireTimers_idle in Hout by exact Hq'.
    rewrite app_nil_r in Hout. subst out.
    cbn [Eff.trace Eff.state fst snd].
    rewrite fetches_app, fetches_retries.
    change (fetches (FetchStatus tx addr :: ?x :: ?tr)) with (S (fetches tr)).
    rewrite Hf. repeat split.
    + apply in_or_app. right. right. right. exact Hin.
    + intros e He. apply in_app_or in He. destruct He as [He|He].
      * apply retries_only in He. destruct He; discriminate.
      * destruct He as [He|[He|He]]; try discriminate. exact (Hun e He).
    + exact Hq'.
  - rewrite (fireTimer_exhausted endpoint (mkPoll 59 tx addr)) in Hout;
      [|reflexivity|unfold maxAttempts; cbn [attempts]; lia|].
    2:{ cbn [attempts]. rewrite Hep.
        apply status_is_pending_not_confirmed, Hd. }
    cbn [attempts txHash traderAddress] in Hout. rewrite Hep in Hout.
    assert (Hfinal : final_error (Resolved d) = Error "Transaction timeout").
    { unfold final_error, status_is. rewrite Hd. reflexivity. }
    rewrite Hfinal, fireTimers_idle in Hout by reflexivity.
    rewrite app_nil_r in Hout. subst out.
    cbn [Eff.trace Eff.state fst snd].
    rewrite fetches_app, fetches_retries. repeat split.
    + apply in_or_app. right. right. left. reflexivity.
    + intros tok tx' He. apply in_app_or in He. destruct He as [He|He].
      * apply retries_only in He. destruct He; discriminate.
      * destruct He as [He|[He|He]]; try discriminate. exact He.
Qed.

(** The theorem for an endpoint that confirms token 7 at the 60th fetch and
    for one that stays [pending], 100 timer periods after the submission. *)
Lemma polling_sixty_attempts_witness :
  (fetches (Eff.trace (polling 100 (Sample.pendingThen 59 Sample.confirmed)
                         "0xfeed" Sample.account Sample.page)) = 60 /\
   In (ShowMintSuccessModal (Some 7%Z) "0xfeed")
      (Eff.trace (polling 100 (Sample.pendingThen 59 Sample.confirmed)
                    "0xfeed" Sample.account Sample.page))) /\
  (fetches (Eff.trace (polling 100 (Sample.pendingThen 60 Sample.confirmed)
                         "0xfeed" Sample.account Sample.page)) = 60 /\
   In (UnhandledRejection (Error "Transaction timeout"))
      (Eff.trace (polling 100 (Sample.pendingThen 60 Sample.confirmed)
                    "0xfeed" Sample.account Sample.page))).
Proof.
  assert (Hpending : forall last k j, 1 <= k <= 59 -> 59 <= j ->
            exists d, Sample.pendingThen j last k = Resolved d /\
                      status d = Some "pending").
  { intros last k j Hk Hj. exists Sample.pending. unfold Sample.pendingThen.
    replace (k <=? j)%nat with true by (symmetry; apply Nat.leb_le; lia).
    split; reflexivity. }
  split.
  - destruct (polling_sixty_attempts 100
                (Sample.pendingThen 59 Sample.confirmed) "0xfeed"
                Sample.account Sample.page eq_refl ltac:(lia)
                (fun k Hk => Hpending _ k 59 Hk (le_n _))) as [H _].
    destruct (H Sample.confirmed eq_refl eq_refl) as (H1 & H2 & _).
    split; assumption.
  - destruct (polling_sixty_attempts 100
                (Sample.pendingThen 60 Sample.confirmed) "0xfeed"
                Sample.account Sample.page eq_refl ltac:(lia)
                (fun k Hk => Hpending _ k 60 Hk ltac:(lia))) as [_ H].
    destruct (H Sample.pending eq_refl eq_refl) as (H1 & H2 & _).
    split; assumption.
Defined.

(** C2, as the code has it.  The error thrown for a [failed] status is
    thrown inside the [try] of [checkStatus] and lands in its own [catch]:
    while attempts are left the call ends in a new timer, exactly as for a
    fetch error, and only the 60th call lets the error out.  So a
    transaction reported [failed] at the first fetch and [confirmed] at the
    second ends on the success path. *)
Theorem failed_status_is_retried :
  (forall (p : Poll) (tok : option Z) (err : option string)
          (s : NFTMinting.t),
     checkStatus p (Resolved (mkStatusData (Some "failed") tok err)) s =
       if (S (attempts p) <? maxAttempts)%nat
       then (Normal tt, rescheduled p s,
             [FetchStatus (txHash p) (traderAddress p); SetTimeout 5000])
       else (Throw (Error (or_default err "Transaction failed")), s,
             [FetchStatus (txHash p) (traderAddress p)])) /\
  fetches (Eff.trace (polling 1 Sample.failedThenConfirmed "0xfeed"
                        Sample.account Sample.page)) = 2 /\
  In (ShowMintSuccessModal (Some 7%Z) "0xfeed")
     (Eff.trace (polling 1 Sample.failedThenConfirmed "0xfeed"
                   Sample.account Sample.page)) /\
  (forall e,
     ~ In (UnhandledRejection e)
          (Eff.trace (polling 1 Sample.failedThenConfirmed "0xfeed"
                        Sample.account Sample.page))).
Proof.
  split.
  - intros p tok err s.
    destruct (Nat.ltb_spec (S (attempts p)) maxAttempts) as [Hlt|Hge].
    + apply checkStatus_reschedules; [exact Hlt | reflexivity].
    + rewrite checkStatus_exhausted; [reflexivity | exact Hge | reflexivity].
  - vm_compute. repeat split; [tauto|].
    intros e H. repeat (destruct H as [H|H]; [discriminate|]). exact H.
Qed.

Lemma confirmed_or_not (reply : Settled StatusData) :
  not_confirmed reply \/
  exists d, reply = Resolved d /\ status_is d "confirmed" = true.
Proof.
  destruct reply as [d|e]; [|left; exact I].
  destruct (status_is d "confirmed") eqn:Hc.
  - right. exists d. split; [reflexivity | exact Hc].
  - left. exact Hc.
Qed.

(** A timer that fires with one closure waiting makes exactly one fetch. *)
Lemma fireTimer_fetches (endpoint : nat -> Settled StatusData) (p : Poll)
    (s : NFTMinting.t) :
  timers s = [p] ->
  fetches (Eff.trace (fireTimer endpoint s)) = 1.
Proof.
  intros Hq.
  destruct (confirmed_or_not (endpoint (S (attempts p))))
    as [Hnc|(d & Hep & Hc)].
  - destruct (Nat.lt_ge_cases (S (attempts p)) maxAttempts) as [Hlt|Hge].
    + rewrite (fireTimer_retry endpoint p s Hq Hlt Hnc). reflexivity.
    + rewrite (fireTimer_exhausted endpoint p s Hq Hge Hnc). reflexivity.
  - rewrite (fireTimer_confirmed endpoint p d s Hq Hep Hc). cbv zeta.
    destruct (onMintSuccess_effect (token_id d) (txHash p) (set_timers [] s))
      as (_ & _ & _ & Hf & _).
    cbn [Eff.trace snd].
    change (fetches (FetchStatus ?a ?b :: ?x :: ?tr)) with (S (fetches tr)).
    rewrite Hf. reflexivity.
Qed.

(** C3. A status fetch that errors at attempt [k] costs that one attempt
    and nothing else.  Of one call: while attempts are left it returns
    normally with the closure, its counter incremented, appended to the
    waiting timers; at the 60th attempt, and only then, it ends, with that
    error.  Of the polling as a whole, after earlier attempts that saw no
    confirmation: [k] fetches have been made when the error arrives; if
    [k < 60] nothing but fetches and timers has happened, the closure waits
    with its counter at [k], the next timer period makes fetch [k + 1], and
    a [confirmed] reply to it ends the polling in success after exactly
    [k + 1] fetches; if [k = 60] the polling ends there, after exactly 60
    fetches, with that error and no timer left. *)
Theorem fetch_error_consumes_attempt
    (k n : nat) (endpoint : nat -> Settled StatusData) (tx addr : string)
    (s : NFTMinting.t) (e : JsError) :
  timers s = [] ->
  1 <= k <= 60 ->
  (forall j, 1 <= j < k -> not_confirmed (endpoint j)) ->
  endpoint k = Rejected e ->
  k <= n ->
  let mid := polling (k - 1) endpoint tx addr s in
  let out := polling n endpoint tx addr s in
  (forall (p : Poll) (s0 : NFTMinting.t),
     let call := checkStatus p (Rejected e) s0 in
     (S (attempts p) < 60 ->
        Eff.result call = Normal tt /\
        timers (Eff.state call)
          = (timers s0
               ++ [mkPoll (S (attempts p)) (txHash p) (traderAddress p)])%list /\
        Eff.trace call
          = [FetchStatus (txHash p) (traderAddress p); SetTimeout 5000]) /\
     (60 <= S (attempts p) ->
        call = (Throw e, s0, [FetchStatus (txHash p) (traderAddress p)]))) /\
  fetches (Eff.trace mid) = k /\
  (k < 60 ->
     Eff.result mid = Normal tt /\
     (forall ev, In ev (Eff.trace mid) ->
        ev = FetchStatus tx addr \/ ev = SetTimeout 5000) /\
     timers (Eff.state mid) = [mkPoll k tx addr] /\
     k < fetches (Eff.trace out) /\
     (forall d, endpoint (S k) = Resolved d ->
        status_is d "confirmed" = true ->
        fetches (Eff.trace out) = S k /\
        In (ShowMintSuccessModal (token_id d) tx) (Eff.trace out) /\
        (forall e', ~ In (UnhandledRejection e') (Eff.trace out)) /\
        timers (Eff.state out) = [])) /\
  (k = 60 ->
     fetches (Eff.trace out) = 60 /\
     In (UnhandledRejection e) (Eff.trace out) /\
     (forall tok tx', ~ In (ShowMintSuccessModal tok tx') (Eff.trace out)) /\
     timers (Eff.state out) = []).
Proof.
  intros Hq Hk Hearlier Hep Hn mid out.
  assert (Hnc : forall j, 1 <= j <= k -> not_confirmed (endpoint j)).
  { intros j Hj. destruct (Nat.eq_dec j k) as [->|Hne].
    - rewrite Hep. exact I.
    - apply Hearlier. lia. }
  split.
  { (* one call *)
    intros p s0 call. subst call. split.
    - intros Hlt.
      rewrite (checkStatus_reschedules p (Rejected e) s0);
        [|unfold maxAttempts; exact Hlt|exact I].
      split; [reflexivity|]. split; reflexivity.
    - intros Hge.
      rewrite (checkStatus_exhausted p (Rejected e) s0);
        [reflexivity|unfold maxAttempts; exact Hge|exact I]. }
  destruct (Nat.eq_dec k 60) as [->|Hne].
  - (* the 60th attempt *)
    assert (Hrun : forall m, polling (59 + m) endpoint tx addr s =
              (Normal tt, set_timers [] (set_timers [mkPoll 59 tx addr] s),
               (retries 59 tx addr
                  ++ [FetchStatus tx addr; UnhandledRejection e])%list)).
    { intros m. replace (59 + m) with (58 + S m) by lia.
      rewrite (polling_retries endpoint tx addr 58 (S m) s Hq);
        [|unfold maxAttempts; lia|intros j Hj; apply Hnc; lia].
      cbn [fireTimers]. unfold Eff.bind at 1.
      rewrite (fireTimer_exhausted endpoint (mkPoll 59 tx addr));
        [|reflexivity|unfold maxAttempts; cbn [attempts]; lia
         |cbn [attempts]; rewrite Hep; exact I].
      cbn [attempts txHash traderAddress]. rewrite Hep. cbn [final_error].
      rewrite fireTimers_idle by reflexivity.
      rewrite app_nil_r. reflexivity. }
    assert (Hmid : mid = polling (59 + 0) endpoint tx addr s) by reflexivity.
    assert (Hout : out = polling (59 + (n - 59)) endpoint tx addr s).
    { subst out. f_equal. lia. }
    rewrite Hrun in Hmid, Hout. clearbody mid out. subst mid out.
    cbn [Eff.trace Eff.state Eff.result fst snd].
    assert (Hf : fetches
                   (retries 59 tx addr
                      ++ [FetchStatus tx addr; UnhandledRejection e]) = 60).
    { rewrite fetches_app, fetches_retries. reflexivity. }
    split; [exact Hf|]. split; [intros Hlt; lia|]. intros _.
    split; [exact Hf|]. split.
    + apply in_or_app. right. right. left. reflexivity.
    + split; [|reflexivity].
      intros tok tx' Hin. apply in_app_or in Hin. destruct Hin as [Hin|Hin].
      * apply retries_only in Hin. destruct Hin; discriminate.
      * destruct Hin as [Hin|[Hin|[]]]; discriminate.
  - (* an attempt before the 60th *)
    destruct k as [|j]; [lia|].
    assert (Hrun : forall m, polling (j + m) endpoint tx addr s =
              let '(r, s', tr) :=
                fireTimers m endpoint (set_timers [mkPoll (S j) tx addr] s) in
              (r, s', (retries (S j) tx addr ++ tr)%list)).
    { intros m. apply polling_retries;
        [exact Hq|unfold maxAttempts; lia|exact Hnc]. }
    assert (Hmid : mid = polling (j + 0) endpoint tx addr s).
    { subst mid. f_equal. lia. }
    assert (Hout : out = polling (j + S (n - S j)) endpoint tx addr s).
    { subst out. f_equal. lia. }
    rewrite Hrun in Hmid, Hout. clearbody mid out.
    cbn [fireTimers Eff.ret] in Hmid. rewrite app_nil_r in Hmid. subst mid.
    cbn [Eff.trace Eff.state Eff.result fst snd timers set_timers].
    split; [apply fetches_retries|]. split; [|intros Hk60; lia]. intros _.
    split; [reflexivity|]. split; [intros ev; apply retries_only|].
    split; [reflexivity|].
    cbn [fireTimers] in Hout. unfold Eff.bind at 1 in Hout.
    split.
    + (* fetch [k + 1] is made *)
      pose proof (fireTimer_fetches endpoint (mkPoll (S j) tx addr)
                    (set_timers [mkPoll (S j) tx addr] s) eq_refl) as Hone.
      destruct (fireTimer endpoint (set_timers [mkPoll (S j) tx addr] s))
        as [[[[]|e1] s1] tr1]; cbn [Eff.trace snd] in Hone.
      * destruct (fireTimers (n - S j) endpoint s1) as [[r2 s2] tr2].
        subst out. cbn [Eff.trace snd].
        rewrite !fetches_app, fetches_retries, Hone. lia.
      * subst out. cbn [Eff.trace snd].
        rewrite fetches_app, fetches_retries, Hone. lia.
    + (* and a confirmation then ends the polling in success *)
      intros d Hnext Hc.
      rewrite (fireTimer_confirmed endpoint (mkPoll (S j) tx addr) d) in Hout;
        [|reflexivity|exact Hnext|exact Hc].
      cbn [txHash traderAddress] in Hout. cbv zeta in Hout.
      destruct (onMintSuccess_effect (token_id d) tx
                  (set_timers [] (set_timers [mkPoll (S j) tx addr] s)))
        as (_ & Hq' & _ & Hf & Hin & Hun).
      rewrite fireTimers_idle in Hout by exact Hq'.
      rewrite app_nil_r in Hout. subst out.
      cbn [Eff.trace Eff.state fst snd].
      rewrite fetches_app, fetches_retries.
      change (fetches (FetchStatus tx addr :: ?x :: ?tr))
        with (S (fetches tr)).
      rewrite Hf. split; [lia|]. split.
      * apply in_or_app. right. right. right. exact Hin.
      * split; [|exact Hq'].
        intros e' He. apply in_app_or in He. destruct He as [He|He].
        -- apply retries_only in He. destruct He; discriminate.
        -- destruct He as [He|[He|He]]; try discriminate.
           exact (Hun e' He).
Qed.

(** The theorem at a first fetch that fails before a confirmation, and at
    60 fetches that all fail. *)
Lemma fetch_error_consumes_attempt_witness :
  fetches
    (Eff.trace (polling 5 Sample.blipThenConfirmed "0xfeed" Sample.account
                  Sample.page)) = 2 /\
  timers
    (Eff.state (polling 0 Sample.blipThenConfirmed "0xfeed" Sample.account
                  Sample.page)) = [mkPoll 1 "0xfeed" Sample.account] /\
  fetches
    (Eff.trace (polling 100 Sample.alwaysFailing "0xfeed" Sample.account
                  Sample.page)) = 60.
Proof.
  destruct (fetch_error_consumes_attempt 1 5 Sample.blipThenConfirmed
              "0xfeed" Sample.account Sample.page Sample.networkError)
    as (_ & _ & Hblip & _).
  - reflexivity.
  - lia.
  - intros j Hj. lia.
  - reflexivity.
  - lia.
  - destruct (fetch_error_consumes_attempt 60 100 Sample.alwaysFailing
                "0xfeed" Sample.account Sample.page Sample.networkError)
      as (_ & _ & _ & Hlast).
    + reflexivity.
    + lia.
    + intros j Hj. exact I.
    + reflexivity.
    + lia.
    + destruct Hblip as (_ & _ & Hwaiting & _ & Hnext); [lia|].
      split; [exact (proj1 (Hnext Sample.confirmed eq_refl eq_refl))|].
      split; [exact Hwaiting|].
      exact (proj1 (Hlast eq_refl)).
Defined.

(** ** [mintNFT] *)

(** C4. While a mint is in flight a further [mintNFT] returns at once: no
    event at all (no prepare request, no dialog, no wallet request, no
    toast) and the page exactly as it was, [isMinting] included. *)
Theorem mintNFT_while_minting
    (h : Host) (r : MintReplies) (addr : string) (s : NFTMinting.t) :
  isMinting s = true ->
  mintNFT h r addr s = (Normal tt, s, []).
Proof.
  intros Hm. unfold mintNFT. eff_run. rewrite Hm. reflexivity.
Qed.

Lemma mintNFT_while_minting_witness :
  mintNFT Sample.host Sample.willingReplies Sample.account
    (set_isMinting true Sample.page)
  = (Normal tt, set_isMinting true Sample.page, []).
Proof.
  apply (mintNFT_while_minting Sample.host Sample.willingReplies
           Sample.account (set_isMinting true Sample.page)).
  reflexivity.
Defined.

(** C6. When the user declines in the confirmation dialog, [mintNFT]
    returns normally with [isMinting] false again; all it did outside was
    the prepare request and the dialog, so the wallet was never asked to
    send the transaction and no error was reported; no polling was
    started. *)
Theorem mintNFT_declined
    (h : Host) (r : MintReplies) (addr : string) (s : NFTMinting.t)
    (d : PrepareData) :
  isMinting s = false ->
  isConnected (walletConnection s) = true ->
  truthy (canUserMint (walletConnection s) addr) = true ->
  prepareReply r = Resolved d ->
  success d = true ->
  userConfirms r = false ->
  let out := mintNFT h r addr s in
  Eff.result out = Normal tt /\
  isMinting (Eff.state out) = false /\
  Eff.trace out = [FetchPrepare addr; ShowMintConfirmation] /\
  ~ submitted (Eff.trace out) /\
  timers (Eff.state out) = timers s.
Proof.
  intros Hm Hconn Hcan Hprep Hsucc Hconf out. subst out.
  destruct s as [ca im w b q], r as [prep conf accs send first].
  cbn [isMinting walletConnection prepareReply userConfirms] in *.
  subst im prep conf.
  unfold mintNFT, setMintingState, showMintConfirmation. eff_run.
  rewrite Hconn, Hcan. eff_run.
  destruct b as [b|]; eff_run; rewrite Hsucc; eff_run;
    (repeat split; [intros [H|[H|[]]]; discriminate]).
Qed.

Lemma mintNFT_declined_witness :
  isMinting
    (Eff.state (mintNFT Sample.host Sample.decliningReplies Sample.account
                  Sample.page)) = false /\
  ~ submitted
      (Eff.trace (mintNFT Sample.host Sample.decliningReplies Sample.account
                    Sample.page)).
Proof.
  destruct (mintNFT_declined Sample.host Sample.decliningReplies
              Sample.account Sample.page
              (mkPrepareData true None "0xa0712d68" None)
              eq_refl eq_refl eq_refl eq_refl eq_refl eq_refl)
    as (_ & H1 & _ & H2 & _).
  split; assumption.
Defined.

(** ** State properties kept by a method *)

Section Preserves.

Context {S : Type} (P : S -> Prop).

Lemma preserves_ret {A} (a : A) : preserves P (Eff.ret a).
Proof. intros s Hs. exact Hs. Qed.

Lemma preserves_throw {A} (e : JsError) : preserves P (@Eff.throw S A e).
Proof. intros s Hs. exact Hs. Qed.

Lemma preserves_emit (ev : Event) : preserves P (Eff.emit ev).
Proof. intros s Hs. exact Hs. Qed.

Lemma preserves_await {A} (x : Settled A) : preserves P (Eff.await x).
Proof. destruct x; intros s Hs; exact Hs. Qed.

Lemma preserves_modify (f : S -> S) :
  (forall s, P s -> P (f s)) -> preserves P (Eff.modify f).
Proof. intros Hf s Hs. apply Hf, Hs. Qed.

Lemma preserves_bind {A B} (m : Eff.t S A) (k : A -> Eff.t S B) :
  preserves P m -> (forall a, preserves P (k a)) -> preserves P (Eff.bind m k).
Proof.
  intros Hm Hk s Hs. unfold Eff.bind. specialize (Hm s Hs).
  destruct (m s) as [[[a|e] s1] tr1]; cbn [Eff.state fst snd] in *.
  - specialize (Hk a s1 Hm). destruct (k a s1) as [[r s2] tr2]. exact Hk.
  - exact Hm.
Qed.

Lemma preserves_get {A} (k : S -> Eff.t S A) :
  (forall s, preserves P (k s)) -> preserves P (Eff.bind Eff.get k).
Proof. intros Hk. apply preserves_bind; [intros s Hs; exact Hs | exact Hk]. Qed.

Lemma preserves_try_catch {A} (m : Eff.t S A) (h : JsError -> Eff.t S A) :
  preserves P m -> (forall e, preserves P (h e)) ->
  preserves P (Eff.try_catch m h).
Proof.
  intros Hm Hh s Hs. unfold Eff.try_catch. specialize (Hm s Hs).
  destruct (m s) as [[[a|e] s1] tr1]; cbn [Eff.state fst snd] in *.
  - exact Hm.
  - specialize (Hh e s1 Hm). destruct (h e s1) as [[r s2] tr2]. exact Hh.
Qed.

Lemma preserves_try_finally {A} (m : Eff.t S A) (f : Eff.t S unit) :
  preserves P m -> preserves P f -> preserves P (Eff.try_finally m f).
Proof.
  intros Hm Hf s Hs. unfold Eff.try_finally. specialize (Hm s Hs).
  destruct (m s) as [[r s1] tr1]; cbn [Eff.state fst snd] in *.
  specialize (Hf s1 Hm). destruct (f s1) as [[[[]|e] s2] tr2]; exact Hf.
Qed.

End Preserves.

Create HintDb preserves discriminated.
#[local] Hint Resolve preserves_ret preserves_throw preserves_emit
  preserves_await preserves_try_catch preserves_try_finally : preserves.

(** Walk through a method: binds, handlers and the branches of its tests. *)
Ltac preserves_step :=
  match goal with
  | |- preserves _ (Eff.bind Eff.get _) => apply preserves_get; intros ?
  | |- preserves _ (Eff.bind _ _) => apply preserves_bind; [|intros ?]
  | |- preserves _ (Eff.try_catch _ _) =>
      apply preserves_try_catch; [|intros ?]
  | |- preserves _ (Eff.try_finally _ _) => apply preserves_try_finally
  | |- preserves _ (MandalaApp.showToast _ _) => apply preserves_emit
  | |- preserves _ (if ?b then _ else _) => destruct b
  | |- preserves _ (match ?x with _ => _ end) => destruct x
  | |- preserves _ _ => solve [auto with preserves]
  end.

(** ** The disabled mint button stays disabled *)

Lemma set_timers_keeps_disabled (q : list Poll) (s : NFTMinting.t) :
  buttonDisabled s -> buttonDisabled (set_timers q s).
Proof. intros Hs. exact Hs. Qed.

Lemma set_isMinting_keeps_disabled (m : bool) (s : NFTMinting.t) :
  buttonDisabled s -> buttonDisabled (set_isMinting m s).
Proof. intros Hs. exact Hs. Qed.

Lemma setMintingState_keeps_disabled (minting : bool) :
  preserves buttonDisabled (setMintingState minting).
Proof.
  intros [ca im w b0 q] (b & Hb & Hd). cbn [mintButton] in Hb. subst b0.
  unfold setMintingState. eff_run.
  destruct minting; eff_run; eexists; (split; [reflexivity|]);
    [reflexivity | exact Hd].
Qed.

Lemma onMintSuccess_keeps_disabled (tok : option Z) (tx : string) :
  preserves buttonDisabled (onMintSuccess tok tx).
Proof.
  intros [ca im w b0 q] (b & Hb & Hd). cbn [mintButton] in Hb. subst b0.
  unfold onMintSuccess. eff_run.
  destruct (falsy_string (currentAccount w)); eff_run;
    eexists; split; reflexivity.
Qed.

Lemma setTimeout_checkStatus_keeps_disabled (p : Poll) :
  preserves buttonDisabled (setTimeout_checkStatus p).
Proof.
  unfold setTimeout_checkStatus. preserves_step; [preserves_step|].
  apply preserves_modify. intros s Hs. exact Hs.
Qed.

#[local] Hint Resolve setMintingState_keeps_disabled
  onMintSuccess_keeps_disabled setTimeout_checkStatus_keeps_disabled
  : preserves.

Lemma checkStatus_keeps_disabled (p : Poll) (reply : Settled StatusData) :
  preserves buttonDisabled (checkStatus p reply).
Proof. unfold checkStatus. repeat preserves_step. Qed.

Lemma waitForTransactionConfirmation_keeps_disabled (tx addr : string)
    (reply : Settled StatusData) :
  preserves buttonDisabled (waitForTransactionConfirmation tx addr reply).
Proof.
  unfold waitForTransactionConfirmation.
  preserves_step; [apply checkStatus_keeps_disabled | repeat preserves_step].
Qed.

Lemma executeTransaction_keeps_disabled (h : Host) (r : MintReplies)
    (payload : string) :
  preserves buttonDisabled (executeTransaction h r payload).
Proof. unfold executeTransaction. repeat preserves_step. Qed.

#[local] Hint Resolve checkStatus_keeps_disabled
  waitForTransactionConfirmation_keeps_disabled
  executeTransaction_keeps_disabled : preserves.

Lemma mintNFT_keeps_disabled (h : Host) (r : MintReplies) (addr : string) :
  preserves buttonDisabled (mintNFT h r addr).
Proof.
  unfold mintNFT, showMintConfirmation.
  repeat first
    [ apply preserves_modify; intros ? Hs; exact Hs
    | preserves_step ].
Qed.

Lemma fireTimer_keeps_disabled (endpoint : nat -> Settled StatusData) :
  preserves buttonDisabled (fireTimer endpoint).
Proof.
  unfold fireTimer.
  repeat first
    [ apply preserves_modify; intros ? Hs; exact Hs
    | preserves_step ].
Qed.

(** ** Mint status and submission *)

Lemma updateMintButton_keeps_guards (addr : string) (st : MintStatus)
    (s : NFTMinting.t) :
  let s' := Eff.state (updateMintButton addr st s) in
  isMinting s' = isMinting s /\ walletConnection s' = walletConnection s /\
  timers s' = timers s.
Proof.
  destruct s as [ca im w b q]. unfold updateMintButton. eff_run.
  destruct b as [b|]; eff_run; repeat split.
Qed.

Ltac not_in_trace H :=
  repeat (destruct H as [H|H]; [discriminate|]); try contradiction.

(** The wallet is asked to send the transaction only if every guard of
    [mintNFT] let the call through, the preparer answered success and the
    user confirmed. *)
Lemma mintNFT_submitted_only_if
    (h : Host) (r : MintReplies) (addr : string) (s : NFTMinting.t) :
  submitted (Eff.trace (mintNFT h r addr s)) ->
  isMinting s = false /\
  isConnected (walletConnection s) = true /\
  truthy (canUserMint (walletConnection s) addr) = true /\
  (exists d, prepareReply r = Resolved d /\ success d = true) /\
  userConfirms r = true.
Proof.
  destruct s as [ca im w b q], r as [prep conf accs send first].
  unfold submitted, mintNFT, setMintingState, showMintConfirmation. eff_run.
  destruct im; eff_run; [intros []|].
  destruct (isConnected w); eff_run; [|intros H; not_in_trace H].
  destruct (truthy (canUserMint w addr)); eff_run;
    [|intros H; not_in_trace H].
  destruct prep as [d|e].
  2:{ destruct b; eff_run; intros H; not_in_trace H. }
  destruct (success d) eqn:Hsucc.
  2:{ destruct b; eff_run; intros H; not_in_trace H. }
  destruct conf.
  2:{ destruct b; eff_run; intros H; not_in_trace H. }
  intros _. repeat split. exists d. split; [reflexivity | exact Hsucc].
Qed.

(** C5, as stated, fails: on the page that has just fetched a status with
    [has_minted] for the connected account, the button is disabled, yet a
    call of [mintNFT] for that account goes all the way to the wallet. *)
Lemma minted_account_reaches_submission :
  has_minted Sample.mintedStatus = true /\
  (exists b, mintButton Sample.mintedPage = Some b /\ disabled b = true) /\
  submitted
    (Eff.trace (mintNFT Sample.host Sample.willingReplies Sample.account
                  Sample.mintedPage)).
Proof.
  split; [reflexivity|]. split.
  - eexists. split; reflexivity.
  - vm_compute. tauto.
Qed.

(** C5, amended.  A fetched status with [has_minted] leaves the mint button
    disabled and labelled as already minted, whatever the wallet session,
    and a later [mintNFT] does not enable it again; [mintNFT] itself does
    not look at the status: after such a fetch it still reaches the wallet
    only if no mint was in flight, the wallet is connected, [canUserMint]
    holds, the preparer answered success and the user confirmed. *)
Theorem minted_status_gates_button_only
    (h : Host) (r : MintReplies) (addr : string) (st : MintStatus)
    (s : NFTMinting.t) :
  has_minted st = true ->
  let s' := Eff.state (updateMintButton addr st s) in
  (forall b, mintButton s = Some b ->
     (exists b', mintButton s' = Some b' /\ disabled b' = true /\
                 textContent b' = "✅ Already Minted") /\
     buttonDisabled (Eff.state (mintNFT h r addr s'))) /\
  (submitted (Eff.trace (mintNFT h r addr s')) ->
     isMinting s = false /\
     isConnected (walletConnection s) = true /\
     truthy (canUserMint (walletConnection s) addr) = true /\
     (exists d, prepareReply r = Resolved d /\ success d = true) /\
     userConfirms r = true).
Proof.
  intros Hminted s'. split.
  - intros b Hb.
    assert (Hb' : exists b', mintButton s' = Some b' /\ disabled b' = true /\
                             textContent b' = "✅ Already Minted").
    { subst s'. destruct s as [ca im w b0 q].
      cbn [mintButton] in Hb. subst b0.
      unfold updateMintButton. eff_run. rewrite Hminted. eff_run.
      eexists. repeat split. }
    split; [exact Hb'|].
    apply mintNFT_keeps_disabled.
    destruct Hb' as (b' & Hb' & Hd & _). exists b'. split; assumption.
  - intros Hsub. apply mintNFT_submitted_only_if in Hsub.
    destruct (updateMintButton_keeps_guards addr st s) as (Hm & Hw & _).
    fold s' in Hm, Hw. rewrite Hm, Hw in Hsub. exact Hsub.
Qed.

Lemma minted_status_gates_button_only_witness :
  exists b', mintButton
               (Eff.state (updateMintButton Sample.account Sample.mintedStatus
                             Sample.page)) = Some b' /\
             disabled b' = true /\
             textContent b' = "✅ Already Minted".
Proof.
  destruct (minted_status_gates_button_only Sample.host Sample.willingReplies
              Sample.account Sample.mintedStatus Sample.page eq_refl)
    as [H _].
  exact (proj1 (H Sample.button eq_refl)).
Defined.

(** ** The polling loop always ends *)

(** Whatever the reply, a call of [checkStatus] fetches once and either
    leaves the timers alone or, with attempts left, queues itself. *)
Lemma checkStatus_shape (p : Poll) (reply : Settled StatusData)
    (s : NFTMinting.t) :
  let out := checkStatus p reply s in
  fetches (Eff.trace out) = 1 /\
  (timers (Eff.state out) = timers s \/
   Eff.result out = Normal tt /\
   S (attempts p) < maxAttempts /\
   timers (Eff.state out) =
     (timers s ++ [mkPoll (S (attempts p)) (txHash p) (traderAddress p)])%list).
Proof.
  intros out. subst out.
  destruct (confirmed_or_not reply) as [Hnc|(d & -> & Hc)].
  - destruct (Nat.lt_ge_cases (S (attempts p)) maxAttempts) as [Hlt|Hge].
    + rewrite (checkStatus_reschedules p reply s Hlt Hnc).
      split; [reflexivity|]. right.
      split; [reflexivity|]. split; [exact Hlt | reflexivity].
    + rewrite (checkStatus_exhausted p reply s Hge Hnc).
      split; [reflexivity|]. left. reflexivity.
  - rewrite (checkStatus_confirmed p d s Hc). cbv zeta.
    destruct (onMintSuccess_effect (token_id d) (txHash p) s)
      as (_ & Hq & _ & Hf & _).
    cbn [Eff.trace Eff.state fst snd].
    change (fetches (FetchStatus ?a ?b :: ?x :: ?tr)) with (S (fetches tr)).
    rewrite Hf. split; [reflexivity|]. left. exact Hq.
Qed.

Lemma fireTimer_shape (endpoint : nat -> Settled StatusData) (p : Poll)
    (s : NFTMinting.t) :
  timers s = [p] ->
  let out := fireTimer endpoint s in
  Eff.result out = Normal tt /\
  fetches (Eff.trace out) = 1 /\
  (timers (Eff.state out) = [] \/
   S (attempts p) < maxAttempts /\
   timers (Eff.state out) =
     [mkPoll (S (attempts p)) (txHash p) (traderAddress p)]).
Proof.
  intros Hq out. subst out. unfold fireTimer. eff_run. rewrite Hq.
  destruct (checkStatus_shape p (endpoint (S (attempts p))) (set_timers [] s))
    as (Hf & Ht).
  destruct (checkStatus p (endpoint (S (attempts p))) (set_timers [] s))
    as [[[[]|e] s'] tr]; cbn [Eff.result Eff.state Eff.trace fst snd] in *.
  - repeat split; [assumption|].
    destruct Ht as [Ht|(_ & Ht)]; [left | right]; exact Ht.
  - rewrite fetches_app, Hf. repeat split.
    destruct Ht as [Ht|(Hr & _)]; [left; exact Ht | discriminate].
Qed.

Lemma fireTimers_bounded (endpoint : nat -> Settled StatusData)
    (tx addr : string) (n a : nat) (s : NFTMinting.t) :
  timers s = [mkPoll a tx addr] ->
  a < maxAttempts ->
  let out := fireTimers n endpoint s in
  fetches (Eff.trace out) <= maxAttempts - a /\
  (maxAttempts - a <= n -> timers (Eff.state out) = []).
Proof.
  revert a s. induction n as [|n IH]; intros a s Hq Ha out; subst out.
  - cbn [fireTimers]. unfold Eff.ret. cbn [Eff.trace Eff.state fst snd].
    change (fetches []) with 0. split; lia.
  - cbn [fireTimers]. unfold Eff.bind.
    destruct (fireTimer_shape endpoint (mkPoll a tx addr) s Hq)
      as (Hr & Hf & Ht).
    destruct (fireTimer endpoint s) as [[r s1] tr1].
    cbn [Eff.result Eff.state Eff.trace fst snd attempts txHash traderAddress]
      in Hr, Hf, Ht.
    subst r. destruct Ht as [Hidle|(Hlt & Hnext)].
    + rewrite (fireTimers_idle n endpoint s1 Hidle).
      cbn [Eff.trace Eff.state fst snd]. rewrite app_nil_r, Hf.
      split; [lia | intros _; exact Hidle].
    + destruct (IH (S a) s1 Hnext Hlt) as (Hf' & Ht').
      destruct (fireTimers n endpoint s1) as [[r2 s2] tr2].
      cbn [Eff.trace Eff.state fst snd] in *.
      rewrite fetches_app, Hf. split; [lia|].
      intros Hn. apply Ht'. lia.
Qed.

Lemma fireTimers_returns (n : nat) (endpoint : nat -> Settled StatusData)
    (s : NFTMinting.t) :
  Eff.result (fireTimers n endpoint s) = Normal tt.
Proof.
  revert s. induction n as [|n IH]; intros s; [reflexivity|].
  cbn [fireTimers]. unfold Eff.bind.
  destruct (fireTimer endpoint s) as [[[[]|e] s2] tr2] eqn:E.
  - specialize (IH s2).
    destruct (fireTimers n endpoint s2) as [[r3 s3] tr3]. exact IH.
  - exfalso. unfold fireTimer in E. revert E. eff_run.
    destruct (timers s) as [|p rest]; [discriminate|].
    destruct (checkStatus p _ _) as [[[[]|e'] s'] tr']; discriminate.
Qed.

Lemma waitForTransactionConfirmation_shape (tx addr : string)
    (reply : Settled StatusData) (s : NFTMinting.t) :
  timers s = [] ->
  let out := waitForTransactionConfirmation tx addr reply s in
  Eff.result out = Normal tt /\
  fetches (Eff.trace out) = 1 /\
  (timers (Eff.state out) = [] \/
   timers (Eff.state out) = [mkPoll 1 tx addr]).
Proof.
  intros Hq out. subst out. unfold waitForTransactionConfirmation.
  unfold Eff.try_catch.
  destruct (checkStatus_shape (mkPoll 0 tx addr) reply s) as (Hf & Ht).
  rewrite Hq in Ht. cbn [app attempts txHash traderAddress] in Ht.
  destruct (checkStatus (mkPoll 0 tx addr) reply s)
    as [[[[]|e] s1] tr1]; cbn [Eff.result Eff.state Eff.trace fst snd] in *.
  - repeat split; [exact Hf|].
    destruct Ht as [Ht|(_ & _ & Ht)]; [left | right]; exact Ht.
  - eff_run. rewrite fetches_app, Hf. repeat split.
    destruct Ht as [Ht|(Hr & _)]; [left; exact Ht | discriminate].
Qed.

(** Whatever the endpoint answers, one transaction costs at most 60
    fetches, and 59 timer periods after the first call no timer is left. *)
Theorem polling_bounded (endpoint : nat -> Settled StatusData)
    (tx addr : string) (n : nat) (s : NFTMinting.t) :
  timers s = [] ->
  let out := polling n endpoint tx addr s in
  Eff.result out = Normal tt /\
  fetches (Eff.trace out) <= maxAttempts /\
  (maxAttempts - 1 <= n -> timers (Eff.state out) = []).
Proof.
  intros Hq out. subst out. unfold polling, Eff.bind.
  destruct (waitForTransactionConfirmation_shape tx addr (endpoint 1) s Hq)
    as (Hr & Hf & Ht).
  destruct (waitForTransactionConfirmation tx addr (endpoint 1) s)
    as [[r s1] tr1].
  cbn [Eff.result Eff.state Eff.trace fst snd] in Hr, Hf, Ht. subst r.
  pose proof (fireTimers_returns n endpoint s1) as Hr.
  destruct Ht as [Hidle|Hnext].
  - rewrite (fireTimers_idle n endpoint s1 Hidle) in *.
    cbn [Eff.result Eff.trace Eff.state fst snd]. rewrite app_nil_r, Hf.
    unfold maxAttempts. repeat split; [lia | intros _; exact Hidle].
  - destruct (fireTimers_bounded endpoint tx addr n 1 s1 Hnext)
      as (Hf' & Ht'); [unfold maxAttempts; lia|].
    destruct (fireTimers n endpoint s1) as [[r2 s2] tr2].
    cbn [Eff.result Eff.trace Eff.state fst snd] in *.
    rewrite fetches_app, Hf. subst r2. unfold maxAttempts in *.
    repeat split; [lia|exact Ht'].
Qed.
